(** * StreamDSL: the operator-composition engine and its production binding

    A shallow embedding of [lib/StreamDSL.js]: the pipeline handle, the DSL
    operators that rewrap its event source, the format transforms, the
    keyed count aggregation and the production-binding entry point [to]. *)

From Stdlib Require Import ZArith String Ascii List Bool Lia.
From stdpp Require Import base option list strings gmap.

Open Scope string_scope.
Open Scope Z_scope.
Open Scope list_scope.

(** ** JavaScript values *)

Set Warnings "-register-all".

Inductive jsval : Type :=
| JUndefined
| JNull
| JBool (b : bool)
| JNum (n : Z)
| JStr (s : string)
| JArr (elems : list jsval)
| JObj (fields : list (string * jsval)).

(** Thrown values: [new Error(msg)] and the engine's own [TypeError]. *)
Inductive exn : Type :=
| Error (msg : string)
| TypeError (msg : string).

Definition typeof (v : jsval) : string :=
  match v with
  | JUndefined => "undefined"
  | JBool _ => "boolean"
  | JNum _ => "number"
  | JStr _ => "string"
  | JNull | JArr _ | JObj _ => "object"
  end.

(** [!!v] *)
Definition truthy (v : jsval) : bool :=
  match v with
  | JUndefined | JNull => false
  | JBool b => b
  | JNum n => negb (n =? 0)
  | JStr s => negb (String.eqb s "")
  | JArr _ | JObj _ => true
  end.

(** [a || b] *)
Definition js_or (a b : jsval) : jsval := if truthy a then a else b.

(** A parameter default [x = d] applies exactly when the argument is
    [undefined]. *)
Definition param_default (v d : jsval) : jsval :=
  match v with JUndefined => d | _ => v end.

Fixpoint assoc (k : string) (fs : list (string * jsval)) : option jsval :=
  match fs with
  | [] => None
  | (k', v) :: rest => if String.eqb k k' then Some v else assoc k rest
  end.


(** [v[k]] for a data property [k]: reading a property of [null] or
    [undefined] throws, a missing property reads as [undefined]. *)
Definition get_prop (v : jsval) (k : string) : exn + jsval :=
  match v with
  | JUndefined => inl (TypeError ("Cannot read property '" +:+ k +:+ "' of undefined"))
  | JNull => inl (TypeError ("Cannot read property '" +:+ k +:+ "' of null"))
  | JObj fs => inr (default JUndefined (assoc k fs))
  | _ => inr JUndefined
  end.

(** Equality of values as keys: by value on primitives, structural on
    literals. *)
Fixpoint jsval_eqb (a b : jsval) : bool :=
  match a, b with
  | JUndefined, JUndefined => true
  | JNull, JNull => true
  | JBool x, JBool y => Bool.eqb x y
  | JNum x, JNum y => x =? y
  | JStr x, JStr y => String.eqb x y
  | JArr xs, JArr ys =>
      (fix go (xs ys : list jsval) : bool :=
         match xs, ys with
         | [], [] => true
         | x :: xs', y :: ys' => jsval_eqb x y && go xs' ys'
         | _, _ => false
         end) xs ys
  | JObj xs, JObj ys =>
      (fix go (xs ys : list (string * jsval)) : bool :=
         match xs, ys with
         | [], [] => true
         | (k, x) :: xs', (k', y) :: ys' =>
             String.eqb k k' && jsval_eqb x y && go xs' ys'
         | _, _ => false
         end) xs ys
  | _, _ => false
  end.

(** [String.prototype.toLowerCase] on the letters A-Z; every other
    character is kept. *)
Definition lower_ascii (c : ascii) : ascii :=
  let n := nat_of_ascii c in
  if (Nat.leb 65 n && Nat.leb n 90)%bool then ascii_of_nat (n + 32) else c.

Fixpoint toLowerCase (s : string) : string :=
  match s with
  | EmptyString => EmptyString
  | String c rest => String (lower_ascii c) (toLowerCase rest)
  end.

(** [xs.join(sep)] on strings. *)
Fixpoint join (sep : string) (xs : list string) : string :=
  match xs with
  | [] => ""
  | [x] => x
  | x :: rest => x +:+ sep +:+ join sep rest
  end.

(** [xs.indexOf(v) === -1] *)
Definition not_indexOf (xs : list string) (v : jsval) : bool :=
  negb (existsb (fun x => jsval_eqb (JStr x) v) xs).

(** ** Computations that may throw *)

Inductive outcome (S A : Type) : Type :=
| Ok (a : A) (s : S)
| Throw (e : exn) (s : S)
| Unmodelled.
Arguments Ok {S A} a s.
Arguments Throw {S A} e s.
Arguments Unmodelled {S A}.

Definition M (S A : Type) : Type := S -> outcome S A.

Definition ret {S A} (a : A) : M S A := fun s => Ok a s.
Definition throw {S A} (e : exn) : M S A := fun s => Throw e s.
Definition unmodelled {S A} : M S A := fun _ => Unmodelled.
Definition bind {S A B} (m : M S A) (k : A -> M S B) : M S B :=
  fun s => match m s with
           | Ok a s' => k a s'
           | Throw e s' => Throw e s'
           | Unmodelled => Unmodelled
           end.
Definition gets {S A} (f : S -> A) : M S A := fun s => Ok (f s) s.
Definition modify {S} (f : S -> S) : M S unit := fun s => Ok tt (f s).
Definition of_sum {S A} (r : exn + A) : M S A :=
  match r with inl e => throw e | inr a => ret a end.
Definition when {S} (b : bool) (m : M S unit) : M S unit :=
  if b then m else ret tt.

Notation "'let*' x ':=' m 'in' k" := (bind m (fun x => k))
  (at level 10, x name, m at level 100, k at level 200).
Notation "m1 ';;;' m2" := (bind m1 (fun _ => m2))
  (at level 100, right associativity).

(** ** The world the callbacks run in

    The keyed stores are shared objects: a handle and the aggregation
    actions built from it hold the same store, so the contents live here
    under the store's identity.  [uuid.v4()], [new Date()] and [JSON.parse]
    are host services. *)

Record world : Type := World {
  stores : gmap nat (list (jsval * Z));
  uuid_v4 : nat -> string;
  uuid_count : nat;
  Date_toISOString : string;
  JSON_parse : string -> exn + jsval
}.


Definition next_uuid : M world jsval :=
  fun w => Ok (JStr (uuid_v4 w (uuid_count w)))
              {| stores := stores w; uuid_v4 := uuid_v4 w;
                 uuid_count := S (uuid_count w);
                 Date_toISOString := Date_toISOString w;
                 JSON_parse := JSON_parse w |}.

(** A user-supplied function [v -> v2]; for [asyncMap] the promise it
    returns is taken at its settlement ([Throw] for a rejection). *)
Definition callback : Type := jsval -> M world jsval.
Definition callback2 : Type := jsval -> jsval -> M world jsval.

(** ** The reactive engine

    A stream is the chain of primitive transforms applied to a source.  The
    engine is push-based: an event emitted at the root travels through the
    whole chain before the next one enters, and every stage keeps its own
    running state (the counters of a slice, the flag of a [skipWhile]).  The
    running state is kept in the stream term itself. *)

(** The upper end of a slice: a count, or [Infinity]. *)
Inductive bound : Type := Fin (n : Z) | Infinity.

Inductive Stream : Type :=
| fromEvent (ee : nat)
| s_empty
| s_map (f : callback) (s : Stream)
| s_flatMapPromise (f : callback) (s : Stream)
| s_tap (f : callback) (s : Stream)
| s_filter (p : callback) (s : Stream)
| s_slice (skip : Z) (take : bound) (s : Stream)
| s_constant (x : jsval) (s : Stream)
| s_takeWhile (p : callback) (s : Stream)
| s_skipWhile (skipping : bool) (p : callback) (s : Stream)
| s_skipRepeats (s : Stream)
| s_skipRepeatsWith (equals : callback2) (s : Stream)
| s_scan (f : callback2) (initial : jsval) (s : Stream)
| s_timestamp (s : Stream)
| s_until (signal s : Stream)
| s_since (signal s : Stream)
| s_throttle (period : jsval) (s : Stream)
| s_delay (delayTime : jsval) (s : Stream)
| s_debounce (period : jsval) (s : Stream)
| s_multicast (s : Stream).

(** What one pushed event does to a stream: the stream afterwards, the
    event it lets out (if any), and whether the stream has ended. *)
Record step : Type := Step {
  next : Stream;
  out : option jsval;
  ended : bool
}.

Definition dec_bound (b : bound) : bound :=
  match b with Fin n => Fin (n - 1) | Infinity => Infinity end.
Definition bound_is_zero (b : bound) : bool :=
  match b with Fin n => n =? 0 | Infinity => false end.

(** The sink of a slice on one event: skip while [skip > 0], drop when
    nothing is left to take, otherwise count down, emit, and end on the last
    one. *)
Definition slice_event (skip : Z) (take : bound) (x : jsval)
  : Z * bound * option jsval * bool :=
  if 0 <? skip then (skip - 1, take, None, false)
  else if bound_is_zero take then (skip, take, None, false)
  else (skip, dec_bound take, Some x, bound_is_zero (dec_bound take)).

Fixpoint push (s : Stream) (ee : nat) (v : jsval) : M world step :=
  match s with
  | fromEvent ee' =>
      ret (Step s (if Nat.eqb ee ee' then Some v else None) false)
  | s_empty => ret (Step s_empty None true)
  | s_map f s0 =>
      let* r := push s0 ee v in
      match out r with
      | None => ret (Step (s_map f (next r)) None (ended r))
      | Some x => let* y := f x in ret (Step (s_map f (next r)) (Some y) (ended r))
      end
  | s_flatMapPromise f s0 =>
      let* r := push s0 ee v in
      match out r with
      | None => ret (Step (s_flatMapPromise f (next r)) None (ended r))
      | Some x =>
          let* y := f x in
          ret (Step (s_flatMapPromise f (next r)) (Some y) (ended r))
      end
  | s_tap f s0 =>
      let* r := push s0 ee v in
      match out r with
      | None => ret (Step (s_tap f (next r)) None (ended r))
      | Some x => let* y := f x in ret (Step (s_tap f (next r)) (Some x) (ended r))
      end
  | s_filter p s0 =>
      let* r := push s0 ee v in
      match out r with
      | None => ret (Step (s_filter p (next r)) None (ended r))
      | Some x =>
          let* b := p x in
          ret (Step (s_filter p (next r)) (if truthy b then Some x else None) (ended r))
      end
  | s_slice skip take s0 =>
      let* r := push s0 ee v in
      match out r with
      | None => ret (Step (s_slice skip take (next r)) None (ended r))
      | Some x =>
          let '(skip', take', o, e) := slice_event skip take x in
          ret (Step (s_slice skip' take' (next r)) o (e || ended r))
      end
  | s_constant x s0 =>
      let* r := push s0 ee v in
      ret (Step (s_constant x (next r))
                (match out r with None => None | Some _ => Some x end) (ended r))
  | s_takeWhile p s0 =>
      let* r := push s0 ee v in
      match out r with
      | None => ret (Step (s_takeWhile p (next r)) None (ended r))
      | Some x =>
          let* b := p x in
          if truthy b then ret (Step (s_takeWhile p (next r)) (Some x) (ended r))
          else ret (Step (s_takeWhile p (next r)) None true)
      end
  | s_skipWhile skipping p s0 =>
      let* r := push s0 ee v in
      match out r with
      | None => ret (Step (s_skipWhile skipping p (next r)) None (ended r))
      | Some x =>
          if skipping then
            let* b := p x in
            if truthy b then ret (Step (s_skipWhile true p (next r)) None (ended r))
            else ret (Step (s_skipWhile false p (next r)) (Some x) (ended r))
          else ret (Step (s_skipWhile false p (next r)) (Some x) (ended r))
      end
  | s_skipRepeats _ | s_skipRepeatsWith _ _ | s_scan _ _ _ | s_timestamp _
  | s_until _ _ | s_since _ _ | s_throttle _ _ | s_delay _ _ | s_debounce _ _
  | s_multicast _ => unmodelled
  end.

(** The events a stream lets out while the listed events are emitted, one
    after the other, on emitter [ee]; emission stops when the stream ends. *)
Fixpoint feed (s : Stream) (ee : nat) (vs : list jsval)
  : M world (Stream * list jsval * bool) :=
  match vs with
  | [] => ret (s, [], false)
  | v :: rest =>
      let* r := push s ee v in
      if ended r then ret (next r, option_list (out r), true)
      else
        let* r' := feed (next r) ee rest in
        let '(s', outs, e) := r' in
        ret (s', option_list (out r) ++ outs, e)
  end.

(** Arithmetic on slice ends: [Infinity + n], [Math.min], [Infinity - n]. *)
Definition bound_add (b : bound) (n : Z) : bound :=
  match b with Fin x => Fin (x + n) | Infinity => Infinity end.
Definition bound_sub (b : bound) (n : Z) : bound :=
  match b with Fin x => Fin (x - n) | Infinity => Infinity end.
Definition bound_min (a b : bound) : bound :=
  match a, b with
  | Fin x, Fin y => Fin (Z.min x y)
  | Fin x, Infinity => Fin x
  | Infinity, _ => b
  end.
Definition bound_leb (b : bound) (n : Z) : bool :=
  match b with Fin x => x <=? n | Infinity => false end.

(** The engine's own operators, as the DSL calls them. *)
Module most.

(** The source of a slice.  The engine does not always put a new slice on
    top of the stream: a slice of a map is commuted below the map (a map of
    a filter is one fused node and is not commuted), and a slice of a slice
    is fused into one slice, with [start + min] as its start and
    [Math.min(end + min, max)] as its end, where [min] and [max] are the
    ends of the inner slice.  A slice from [min] to [max] skips [min] events
    and then takes [max - min]. *)
Fixpoint sliceSource (start : Z) (end_ : bound) (s : Stream) : Stream :=
  match s with
  | s_map f s0 =>
      match s0 with
      | s_filter _ _ => s_slice start (bound_sub end_ start) s
      | _ => s_map f (sliceSource start end_ s0)
      end
  | s_constant x s0 =>
      match s0 with
      | s_filter _ _ => s_slice start (bound_sub end_ start) s
      | _ => s_constant x (sliceSource start end_ s0)
      end
  | s_slice min take s0 =>
      let max := bound_add take min in
      let start' := start + min in
      let end' := bound_min (bound_add end_ min) max in
      s_slice start' (bound_sub end' start') s0
  | _ => s_slice start (bound_sub end_ start) s
  end.

(** [end <= start ? empty() : sliceSource(start, end, source)] *)
Definition slice (start : Z) (end_ : bound) (s : Stream) : Stream :=
  if bound_leb end_ start then s_empty else sliceSource start end_ s.
Definition skip (n : Z) (s : Stream) : Stream := slice n Infinity s.
Definition take (n : Z) (s : Stream) : Stream := slice 0 (Fin n) s.

End most.

(** ** Collaborators *)

(** What a client's [setupProducer(topic, partitions, onReady, onError)]
    does with its two callbacks. *)
Inductive setup_behaviour : Type :=
| SetupReady (v : jsval)
| SetupFails (e : exn)
| SetupSilent.

(** The three produce operations of the broker client. *)
Inductive kafka_call : Type :=
| call_send (topic message : jsval)
| call_buffer (topic key message compressionType : jsval)
| call_bufferFormat (topic key message version compressionType : jsval).

(** A broker client object.  [setupProducer] is [None] when the object has
    no such member; [produce_result c i] is the settlement of the promise the
    [i]-th produce call returns ([None]: fulfilled, [Some e]: rejected with
    [e]). *)
Record KafkaClient : Type := {
  instanceof_KafkaClient : bool;
  setupProducer : option setup_behaviour;
  produce_result : kafka_call -> nat -> option exn
}.

(** A store object, known by its identity in the world. *)
Record storage_obj : Type := {
  instanceof_KStorage : bool;
  storage_id : nat
}.

Definition PRODUCE_TYPES : list (string * string) :=
  [("SEND", "send"); ("BUFFER", "buffer"); ("BUFFER_FORMAT", "buffer_format")].

Definition PRODUCE_TYPES_SEND : string := "send".
Definition PRODUCE_TYPES_BUFFER : string := "buffer".
Definition PRODUCE_TYPES_BUFFER_FORMAT : string := "buffer_format".

Definition DEFAULT_AUTO_FLUSH_BUFFER_SIZE : Z := 100.

(** ** The pipeline handle *)

Record StreamDSL : Type := {
  topicName : jsval;
  kafka : option KafkaClient;
  storage : storage_obj;
  isClone : bool;
  _ee : nat;
  stream : Stream;
  produceAsTopic : bool;
  outputTopicName : jsval;
  outputPartitionsCount : jsval;
  produceType : jsval;
  produceVersion : jsval;
  produceCompressionType : jsval;
  _kafkaStreams : jsval
}.

(** [new StreamDSL(topicName, storage, kafka, isClone)]; [ee] is the event
    emitter the constructor creates.  [inl] is a thrown exception. *)
Definition constructor (topicName : jsval) (storage : option storage_obj)
    (kafka : option KafkaClient) (isClone : bool) (ee : nat) : exn + StreamDSL :=
  if negb isClone
     && match kafka with
        | None => true
        | Some k => negb (instanceof_KafkaClient k)
        end
  then inl (Error "kafka has to be an instance of KafkaClient.")
  else
    match storage with
    | None => inl (Error "storage hsa to be an instance of KStorage.")
    | Some st =>
        if negb (instanceof_KStorage st)
        then inl (Error "storage hsa to be an instance of KStorage.")
        else if negb (instanceof_KStorage st)
        then inl (Error "storage must be an instance of KStorage.")
        else inr {| topicName := js_or topicName (JStr "");
                    kafka := kafka;
                    storage := st;
                    isClone := isClone;
                    _ee := ee;
                    stream := fromEvent ee;
                    produceAsTopic := false;
                    outputTopicName := JNull;
                    outputPartitionsCount := JNum 1;
                    produceType := JStr PRODUCE_TYPES_SEND;
                    produceVersion := JNum 1;
                    produceCompressionType := JNum 0;
                    _kafkaStreams := JNull |}
    end.

Definition set_stream (f : Stream -> Stream) (h : StreamDSL) : StreamDSL :=
  {| topicName := topicName h; kafka := kafka h; storage := storage h;
     isClone := isClone h; _ee := _ee h;
     stream := f (stream h);
     produceAsTopic := produceAsTopic h; outputTopicName := outputTopicName h;
     outputPartitionsCount := outputPartitionsCount h;
     produceType := produceType h; produceVersion := produceVersion h;
     produceCompressionType := produceCompressionType h;
     _kafkaStreams := _kafkaStreams h |}.

(** The six assignments of [to], lines 802-807. *)
Definition set_output (topic partitions type version compression : jsval)
    (h : StreamDSL) : StreamDSL :=
  {| topicName := topicName h; kafka := kafka h; storage := storage h;
     isClone := isClone h; _ee := _ee h; stream := stream h;
     produceAsTopic := true;
     outputTopicName := topic;
     outputPartitionsCount := partitions;
     produceType := type;
     produceVersion := version;
     produceCompressionType := compression;
     _kafkaStreams := _kafkaStreams h |}.

(** ** The run-time state a method call acts on *)

Inductive promise_state : Type :=
| Pending
| Fulfilled (v : jsval)
| Rejected (e : exn).

(** The arguments of [to] its terminal consumer closes over. *)
Record consumer : Type := {
  c_version : jsval;
  c_compressionType : jsval;
  c_producerErrorCallback : option nat
}.

Inductive observer : Type :=
| each_user (eff : callback)
| each_produce (c : consumer).

Inductive sub_status : Type :=
| SubActive
| SubEnded
| SubFailed (e : exn).

(** A running [forEach]: the stream it observes, its observer, and the
    promise it returned. *)
Record subscription : Type := {
  sub_stream : Stream;
  sub_observer : observer;
  sub_state : sub_status;
  sub_promise : nat
}.

Record state : Type := {
  this : StreamDSL;
  env : world;
  promises : list promise_state;
  subscriptions : list subscription;
  setup_calls : list (jsval * jsval);
  produced : list kafka_call;
  error_callbacks : list (nat * exn)
}.

Definition with_this (f : StreamDSL -> StreamDSL) (st : state) : state :=
  {| this := f (this st); env := env st; promises := promises st;
     subscriptions := subscriptions st; setup_calls := setup_calls st;
     produced := produced st; error_callbacks := error_callbacks st |}.
Definition with_env (f : world -> world) (st : state) : state :=
  {| this := this st; env := f (env st); promises := promises st;
     subscriptions := subscriptions st; setup_calls := setup_calls st;
     produced := produced st; error_callbacks := error_callbacks st |}.
Definition with_promises (f : list promise_state -> list promise_state)
    (st : state) : state :=
  {| this := this st; env := env st; promises := f (promises st);
     subscriptions := subscriptions st; setup_calls := setup_calls st;
     produced := produced st; error_callbacks := error_callbacks st |}.
Definition with_subscriptions (f : list subscription -> list subscription)
    (st : state) : state :=
  {| this := this st; env := env st; promises := promises st;
     subscriptions := f (subscriptions st); setup_calls := setup_calls st;
     produced := produced st; error_callbacks := error_callbacks st |}.
Definition log_setup (topic partitions : jsval) (st : state) : state :=
  {| this := this st; env := env st; promises := promises st;
     subscriptions := subscriptions st;
     setup_calls := setup_calls st ++ [(topic, partitions)];
     produced := produced st; error_callbacks := error_callbacks st |}.
Definition log_produced (c : kafka_call) (st : state) : state :=
  {| this := this st; env := env st; promises := promises st;
     subscriptions := subscriptions st; setup_calls := setup_calls st;
     produced := produced st ++ [c]; error_callbacks := error_callbacks st |}.
Definition log_error (f : nat) (e : exn) (st : state) : state :=
  {| this := this st; env := env st; promises := promises st;
     subscriptions := subscriptions st; setup_calls := setup_calls st;
     produced := produced st; error_callbacks := error_callbacks st ++ [(f, e)] |}.

(** A promise settles once. *)
Definition settle (p : nat) (r : promise_state) (ps : list promise_state)
  : list promise_state :=
  match ps !! p with
  | Some Pending => <[p := r]> ps
  | _ => ps
  end.

Definition Method (A : Type) : Type := M state A.

(** What a method hands back: the handle it was called on, or a promise. *)
Inductive retval : Type :=
| RThis
| RPromise (p : nat).

(** [new Promise(executor)]: the executor runs at once; an exception it
    throws does not leave the constructor but rejects the promise. *)
Definition new_Promise (executor : (jsval -> Method unit) -> Method unit)
  : Method retval :=
  fun st =>
    let p := length (promises st) in
    let resolve := fun v => modify (with_promises (settle p (Fulfilled v))) in
    match executor resolve (with_promises (fun ps => ps ++ [Pending]) st) with
    | Ok _ st' => Ok (RPromise p) st'
    | Throw e st' => Ok (RPromise p) (with_promises (settle p (Rejected e)) st')
    | Unmodelled => Unmodelled
    end.

(** ** The format transforms installed by [mapToFormat] / [mapFromFormat] *)

(** [message => ({payload: message, time: (new Date()).toISOString(), type, id})]
    with [id = getId ? getId(message) : uuid.v4()]. *)
Definition toFormat_etl (type : jsval) (getId : option callback) : callback :=
  fun message =>
    let* id := match getId with
               | Some g => g message
               | None => next_uuid
               end in
    let* time := gets (fun w => JStr (Date_toISOString w)) in
    ret (JObj [("payload", message); ("time", time); ("type", type); ("id", id)]).

(** [try { ... } catch(e) { }] around a computation that yields a value to
    return, or nothing. *)
Definition try_ (m : M world (option jsval)) : M world (option jsval) :=
  fun w => match m w with
           | Throw _ w' => Ok None w'
           | r => r
           end.

Definition fromFormat_etl : callback :=
  fun message =>
    if String.eqb (typeof message) "object" then of_sum (get_prop message "payload")
    else
      let* r := try_ (let* object := (match message with
                                      | JStr s =>
                                          let* parse := gets JSON_parse in
                                          of_sum (parse s)
                                      | JUndefined => throw (Error "Unexpected token u in JSON")
                                      | other => ret other
                                      end) in
                      if String.eqb (typeof object) "object"
                      then let* p := of_sum (get_prop object "payload") in ret (Some p)
                      else ret None) in
      match r with
      | Some p => ret p
      | None => ret message
      end.

(** ** The keyed store and the count action *)






(** ** Production *)

(** [produceType.toLowerCase()] *)
Definition String_toLowerCase (v : jsval) : Method jsval :=
  match v with
  | JStr s => ret (JStr (toLowerCase s))
  | _ => throw (TypeError "produceType.toLowerCase is not a function")
  end.

(** [this.kafka.setupProducer(topic, partitions, resolve, onError)] *)
Definition call_setupProducer (b : setup_behaviour) (topic partitions : jsval)
    (resolve : jsval -> Method unit) (onError : option nat) : Method unit :=
  modify (log_setup topic partitions) ;;;
  match b with
  | SetupReady v => resolve v
  | SetupFails e =>
      match onError with
      | Some f => modify (log_error f e)
      | None => ret tt
      end
  | SetupSilent => ret tt
  end.

(** The terminal consumer [to] attaches, lines 824-847: one produce call
    chosen by [this.produceType], then [promise.catch] forwarding a rejection
    to the error callback when there is one. *)
Definition produce_message (c : consumer) (message : jsval) : Method unit :=
  let* h := gets this in
  match kafka h with
  | None => throw (TypeError "Cannot read property 'send' of null")
  | Some k =>
      let call :=
        if jsval_eqb (produceType h) (JStr PRODUCE_TYPES_SEND)
        then Some (call_send (outputTopicName h) message)
        else if jsval_eqb (produceType h) (JStr PRODUCE_TYPES_BUFFER)
        then Some (call_buffer (outputTopicName h) JNull message (c_compressionType c))
        else if jsval_eqb (produceType h) (JStr PRODUCE_TYPES_BUFFER_FORMAT)
        then Some (call_bufferFormat (outputTopicName h) JNull message
                     (c_version c) (c_compressionType c))
        else None in
      match call with
      | None => throw (TypeError "Cannot read property 'catch' of null")
      | Some cl =>
          let* i := gets (fun st => length (produced st)) in
          modify (log_produced cl) ;;;
          match produce_result k cl i with
          | None => ret tt
          | Some e =>
              match c_producerErrorCallback c with
              | Some f => modify (log_error f e)
              | None => ret tt
              end
          end
      end
  end.

(** A callback run from a method. *)
Definition in_world {A} (m : M world A) : Method A :=
  fun st => match m (env st) with
            | Ok a w => Ok a (with_env (fun _ => w) st)
            | Throw e w => Throw e (with_env (fun _ => w) st)
            | Unmodelled => Unmodelled
            end.

Definition observe (o : observer) (x : jsval) : Method unit :=
  match o with
  | each_user eff => let* y := in_world (eff x) in ret tt
  | each_produce c => produce_message c x
  end.

Definition sub_with (s : Stream) (stt : sub_status) (sub : subscription)
  : subscription :=
  {| sub_stream := s; sub_observer := sub_observer sub; sub_state := stt;
     sub_promise := sub_promise sub |}.

(** One event emitted on [ee] reaching one subscription: it runs through
    the stream, and what comes out is handed to the observer.  An exception in
    the stream or in the observer fails the subscription and rejects its
    promise. *)
Definition deliver (ee : nat) (v : jsval) (sub : subscription)
  : Method subscription :=
  match sub_state sub with
  | SubActive =>
      fun st =>
        match in_world (push (sub_stream sub) ee v) st with
        | Unmodelled => Unmodelled
        | Throw e st1 =>
            Ok (sub_with (sub_stream sub) (SubFailed e) sub)
               (with_promises (settle (sub_promise sub) (Rejected e)) st1)
        | Ok r st1 =>
            let after :=
              if ended r
              then (SubEnded, with_promises (settle (sub_promise sub) (Fulfilled JUndefined)))
              else (SubActive, fun s => s) in
            match out r with
            | None => Ok (sub_with (next r) (fst after) sub) (snd after st1)
            | Some x =>
                match observe (sub_observer sub) x st1 with
                | Unmodelled => Unmodelled
                | Throw e st2 =>
                    Ok (sub_with (next r) (SubFailed e) sub)
                       (with_promises (settle (sub_promise sub) (Rejected e)) st2)
                | Ok _ st2 => Ok (sub_with (next r) (fst after) sub) (snd after st2)
                end
            end
        end
  | _ => ret sub
  end.

Fixpoint deliver_all (ee : nat) (v : jsval) (subs : list subscription)
  : Method (list subscription) :=
  match subs with
  | [] => ret []
  | sub :: rest =>
      let* sub' := deliver ee v sub in
      let* rest' := deliver_all ee v rest in
      ret (sub' :: rest')
  end.

(** ** The methods of the handle *)

Module DSL.

Definition rewrap (f : Stream -> Stream) : Method unit :=
  modify (with_this (set_stream f)).

Definition writeToStream (message : jsval) : Method unit :=
  let* ee := gets (fun st => _ee (this st)) in
  let* subs := gets subscriptions in
  let* subs' := deliver_all ee message subs in
  modify (with_subscriptions (fun _ => subs')).

Definition map (etl : callback) : Method retval :=
  rewrap (s_map etl) ;;; ret RThis.

Definition asyncMap (etl : callback) : Method retval :=
  rewrap (s_flatMapPromise etl) ;;; ret RThis.

(** [return this.stream$.forEach(eff)] *)
Definition forEach (eff : observer) : Method retval :=
  fun st =>
    let p := length (promises st) in
    let sub := {| sub_stream := stream (this st); sub_observer := eff;
                  sub_state := SubActive; sub_promise := p |} in
    Ok (RPromise p)
       (with_subscriptions (fun l => l ++ [sub])
          (with_promises (fun ps => ps ++ [Pending]) st)).

Definition tap (eff : callback) : Method retval :=
  rewrap (s_tap eff) ;;; ret RThis.

Definition filter (pred : callback) : Method retval :=
  rewrap (s_filter pred) ;;; ret RThis.

Definition skipRepeats : Method retval :=
  rewrap s_skipRepeats ;;; ret RThis.

Definition skipRepeatsWith (equals : callback2) : Method retval :=
  rewrap (s_skipRepeatsWith equals) ;;; ret RThis.

Definition skip (count : Z) : Method retval :=
  rewrap (most.skip count) ;;; ret RThis.

Definition take (count : Z) : Method retval :=
  rewrap (most.take count) ;;; ret RThis.

Definition multicast : Method retval :=
  rewrap s_multicast ;;; ret RThis.

Definition mapToFormat (type : jsval) (getId : option callback) : Method retval :=
  let type := param_default type (JStr "unknown-publish") in
  let* r := map (toFormat_etl type getId) in
  ret RThis.

Definition mapFromFormat : Method retval :=
  let* r := map fromFormat_etl in
  ret RThis.

Definition timestamp (etl : option callback) : Method retval :=
  match etl with
  | None => rewrap s_timestamp ;;; ret RThis
  | Some f =>
      rewrap (s_map (fun element =>
                let* t := f element in
                ret (JObj [("time", t); ("value", element)]))) ;;;
      ret RThis
  end.

Definition constant (substitute : jsval) : Method retval :=
  rewrap (s_constant substitute) ;;; ret RThis.

Definition scan (eff : callback2) (initial : jsval) : Method retval :=
  rewrap (s_scan eff initial) ;;; ret RThis.

Definition slice (start : Z) (end_ : bound) : Method retval :=
  rewrap (most.slice start end_) ;;; ret RThis.

Definition takeWhile (pred : callback) : Method retval :=
  rewrap (s_takeWhile pred) ;;; ret RThis.

Definition skipWhile (pred : callback) : Method retval :=
  rewrap (s_skipWhile true pred) ;;; ret RThis.

Definition until (signal : Stream) : Method retval :=
  rewrap (s_until signal) ;;; ret RThis.

Definition since (signal : Stream) : Method retval :=
  rewrap (s_since signal) ;;; ret RThis.

Definition throttle (throttlePeriod : jsval) : Method retval :=
  rewrap (s_throttle throttlePeriod) ;;; ret RThis.

Definition delay (delayTime : jsval) : Method retval :=
  rewrap (s_delay delayTime) ;;; ret RThis.

Definition debounce (debounceTime : jsval) : Method retval :=
  rewrap (s_debounce debounceTime) ;;; ret RThis.


(** [to(topic, outputPartitionsCount = 1, produceType = "send", version = 1,
    compressionType = 0, producerErrorCallback = null)] *)
Definition to (topic outputPartitionsCount' produceType version compressionType : jsval)
    (producerErrorCallback : option nat) : Method retval :=
  let outputPartitionsCount' := param_default outputPartitionsCount' (JNum 1) in
  let produceType := param_default produceType (JStr "send") in
  let version := param_default version (JNum 1) in
  let compressionType := param_default compressionType (JNum 0) in
  new_Promise (fun resolve =>
    let* already := gets (fun st => produceAsTopic (this st)) in
    when already
      (throw (Error ".to() has already been called on this dsl instance.")) ;;;
    let produceType := js_or produceType (JStr "") in
    let* produceType := String_toLowerCase produceType in
    let produceTypes := List.map snd PRODUCE_TYPES in
    when (not_indexOf produceTypes produceType)
      (throw (Error ("produceType must be a supported types: "
                     +:+ join ", " produceTypes +:+ "."))) ;;;
    modify (with_this
              (set_output topic outputPartitionsCount' produceType version
                 compressionType)) ;;;
    let* h := gets this in
    if negb (isClone h) then resolve (JBool true)
    else
      match kafka h with
      | None =>
          throw (Error "setting .to() on a cloned KStream requires a kafka client to injected during merge.")
      | Some k =>
          match setupProducer k with
          | None =>
              throw (Error "setting .to() on a cloned KStream requires a kafka client to injected during merge.")
          | Some b =>
              call_setupProducer b (outputTopicName h) (outputPartitionsCount h)
                resolve producerErrorCallback ;;;
              let* p := forEach (each_produce
                                   {| c_version := version;
                                      c_compressionType := compressionType;
                                      c_producerErrorCallback := producerErrorCallback |}) in
              ret tt
          end
      end).

End DSL.

(** The three configuration errors of [to]. *)
Definition already_bound_error : exn :=
  Error ".to() has already been called on this dsl instance.".
Definition produce_type_error : exn :=
  Error "produceType must be a supported types: send, buffer, buffer_format.".
Definition clone_producer_error : exn :=
  Error "setting .to() on a cloned KStream requires a kafka client to injected during merge.".

Definition valid_mode (s : string) : bool :=
  String.eqb s "send" || String.eqb s "buffer" || String.eqb s "buffer_format".

(** ** Vocabulary of the statements *)

(** The produce mode [to] validates: the argument with its default, after
    [|| ""] and lower-casing; [None] when that is not a string. *)
Definition requested_mode (produceType : jsval) : option string :=
  match js_or (param_default produceType (JStr "send")) (JStr "") with
  | JStr s => Some (toLowerCase s)
  | _ => None
  end.

(** The handle after the six assignments of a [to] call, with the
    defaults of its parameters applied. *)
Definition bound_handle (topic parts : jsval) (m : string) (v c : jsval)
    (h : StreamDSL) : StreamDSL :=
  set_output topic (param_default parts (JNum 1)) (JStr m)
    (param_default v (JNum 1)) (param_default c (JNum 0)) h.

(** [!this.kafka || !this.kafka.setupProducer] *)
Definition lacks_producer_setup (h : StreamDSL) : Prop :=
  match kafka h with
  | None => True
  | Some k => setupProducer k = None
  end.

(** The terminal consumer of a [to] call with these arguments. *)
Definition produce_consumer (v c : jsval) (cb : option nat) : consumer :=
  {| c_version := param_default v (JNum 1);
     c_compressionType := param_default c (JNum 0);
     c_producerErrorCallback := cb |}.

(** The state a [to] call leaves on a clone whose client has
    [setupProducer]: the handle bound, the set-up requested, the promise
    resolved when the client reports ready, and the consumer subscribed. *)
Definition state_after_setup (st : state) (topic parts : jsval) (m : string)
    (v c : jsval) (cb : option nat) (b : setup_behaviour) : state :=
  {| this := bound_handle topic parts m v c (this st);
     env := env st;
     promises := promises st
                 ++ [match b with SetupReady x => Fulfilled x | _ => Pending end;
                     Pending];
     subscriptions := subscriptions st
                      ++ [{| sub_stream := stream (this st);
                             sub_observer := each_produce (produce_consumer v c cb);
                             sub_state := SubActive;
                             sub_promise := S (length (promises st)) |}];
     setup_calls := setup_calls st ++ [(topic, param_default parts (JNum 1))];
     produced := produced st;
     error_callbacks := match b, cb with
                        | SetupFails e, Some f => error_callbacks st ++ [(f, e)]
                        | _, _ => error_callbacks st
                        end |}.

(** A world with empty stores. *)
Definition host0 : world :=
  {| stores := ∅;
     uuid_v4 := fun n => "00000000-0000-4000-8000-000000000000";
     uuid_count := 0;
     Date_toISOString := "2017-03-01T12:00:00.000Z";
     JSON_parse := fun _ => inl (Error "Unexpected token") |}.

(** A [KafkaClient] instance whose produce calls all succeed. *)
Definition client0 : KafkaClient :=
  {| instanceof_KafkaClient := true;
     setupProducer := Some (SetupReady JUndefined);
     produce_result := fun _ _ => None |}.

(** A [KStorage] instance. *)
Definition storage0 : storage_obj :=
  {| instanceof_KStorage := true; storage_id := 0 |}.

(** The state in which nothing has happened yet to handle [h]. *)
Definition start (h : StreamDSL) : state :=
  {| this := h; env := host0; promises := []; subscriptions := [];
     setup_calls := []; produced := []; error_callbacks := [] |}.

(** One of the three configuration errors of [to]. *)
Definition is_configuration_error (e : exn) : Prop :=
  e = already_bound_error \/ e = produce_type_error \/ e = clone_producer_error.

(** [!kafka || !(kafka instanceof KafkaClient)] *)
Definition missing_client (kafka : option KafkaClient) : Prop :=
  match kafka with
  | None => True
  | Some k => instanceof_KafkaClient k = false
  end.

(** [!storage || !(storage instanceof KStorage)] *)
Definition missing_storage (storage : option storage_obj) : Prop :=
  match storage with
  | None => True
  | Some s => instanceof_KStorage s = false
  end.

(** A call of one of the rewrapping operators, with its arguments. *)
Inductive operator_call : Type :=
| call_map (etl : callback)
| call_asyncMap (etl : callback)
| call_filter (pred : callback)
| call_tap (eff : callback)
| call_scan (eff : callback2) (initial : jsval)
| call_throttle (throttlePeriod : jsval)
| call_delay (delayTime : jsval)
| call_debounce (debounceTime : jsval)
| call_skip (count : Z)
| call_take (count : Z)
| call_skipWhile (pred : callback)
| call_takeWhile (pred : callback)
| call_skipRepeats
| call_skipRepeatsWith (equals : callback2)
| call_slice (start : Z) (end_ : bound)
| call_constant (substitute : jsval)
| call_timestamp (etl : option callback)
| call_until (signal : Stream)
| call_since (signal : Stream).

(** The method an operator call runs. *)
Definition invoke (c : operator_call) : Method retval :=
  match c with
  | call_map etl => DSL.map etl
  | call_asyncMap etl => DSL.asyncMap etl
  | call_filter pred => DSL.filter pred
  | call_tap eff => DSL.tap eff
  | call_scan eff initial => DSL.scan eff initial
  | call_throttle p => DSL.throttle p
  | call_delay d => DSL.delay d
  | call_debounce d => DSL.debounce d
  | call_skip n => DSL.skip n
  | call_take n => DSL.take n
  | call_skipWhile pred => DSL.skipWhile pred
  | call_takeWhile pred => DSL.takeWhile pred
  | call_skipRepeats => DSL.skipRepeats
  | call_skipRepeatsWith equals => DSL.skipRepeatsWith equals
  | call_slice start end_ => DSL.slice start end_
  | call_constant substitute => DSL.constant substitute
  | call_timestamp etl => DSL.timestamp etl
  | call_until signal => DSL.until signal
  | call_since signal => DSL.since signal
  end.

(** The id extractor, when there is one, returns on [v] in world [w]. *)
Definition returns_on (getId : option callback) (v : jsval) (w : world) : Prop :=
  match getId with
  | None => True
  | Some g => exists i w', g v w = Ok i w'
  end.

(** What a slice lets out of the events that reach it, one after the
    other. *)
Fixpoint slice_list (skip : Z) (take : bound) (xs : list jsval) : list jsval :=
  match xs with
  | [] => []
  | x :: rest =>
      let '(skip', take', o, e) := slice_event skip take x in
      option_list o ++ (if e then [] else slice_list skip' take' rest)
  end.






(** The produce call a terminal event leads to under mode [m]. *)
Definition dispatch_call (m : string) (topic version compression x : jsval)
  : kafka_call :=
  if String.eqb m "send" then call_send topic x
  else if String.eqb m "buffer" then call_buffer topic JNull x compression
  else call_bufferFormat topic JNull x version compression.

(** The rejections among successive produce calls, the first of which is
    the client's [i]-th. *)
Fixpoint rejections (k : KafkaClient) (i : nat) (calls : list kafka_call)
  : list exn :=
  match calls with
  | [] => []
  | c :: rest => option_list (produce_result k c i) ++ rejections k (S i) rest
  end.

(** The invocations of the error callback for these errors: none when
    no callback was given. *)
Definition reported (cb : option nat) (errors : list exn) : list (nat * exn) :=
  match cb with
  | Some f => List.map (pair f) errors
  | None => []
  end.

(** [writeToStream] for each of the events, in order. *)
Fixpoint write_all (vs : list jsval) : Method unit :=
  match vs with
  | [] => ret tt
  | v :: rest => DSL.writeToStream v ;;; write_all rest
  end.

(** The subscription of a terminal consumer. *)
Definition produce_sub (s : Stream) (c : consumer) (stt : sub_status) (q : nat)
  : subscription :=
  {| sub_stream := s; sub_observer := each_produce c; sub_state := stt;
     sub_promise := q |}.

(** A client object that is no [KafkaClient] instance but has
    [setupProducer]; its second produce call is rejected. *)
Definition client1 : KafkaClient :=
  {| instanceof_KafkaClient := false;
     setupProducer := Some (SetupReady (JBool true));
     produce_result := fun _ i =>
       if Nat.eqb i 1 then Some (Error "broker unavailable") else None |}.

(** The handle the constructor builds for topic "in", store [storage0],
    client [k] and emitter 0. *)
Definition handle0 (k : option KafkaClient) (clone : bool) : StreamDSL :=
  {| topicName := JStr "in"; kafka := k; storage := storage0;
     isClone := clone; _ee := 0%nat; stream := fromEvent 0;
     produceAsTopic := false; outputTopicName := JNull;
     outputPartitionsCount := JNum 1; produceType := JStr "send";
     produceVersion := JNum 1; produceCompressionType := JNum 0;
     _kafkaStreams := JNull |}.

(** [message => message.id] *)
Definition read_id : callback := fun message => of_sum (get_prop message "id").

(** ** Further methods of the handle *)

(** [s.startsWith(p)] *)
Fixpoint starts_with (p s : string) : bool :=
  match p, s with
  | EmptyString, _ => true
  | String a p', String b s' => Ascii.eqb a b && starts_with p' s'
  | String _ _, EmptyString => false
  end.

(** [s.split(sep)] for a non-empty separator, read left to right: [cur]
    is the piece being collected, [skip] counts the characters of a matched
    separator still to pass over. *)
Fixpoint split_go (sep s : string) (skip : nat) (cur : string) : list string :=
  match s with
  | EmptyString => [cur]
  | String c rest =>
      match skip with
      | S k => split_go sep rest k cur
      | O =>
          if starts_with sep s
          then cur :: split_go sep rest (String.length sep - 1) EmptyString
          else split_go sep rest 0 (cur +:+ String c EmptyString)
      end
  end.

Fixpoint string_chars (s : string) : list string :=
  match s with
  | EmptyString => []
  | String c rest => String c EmptyString :: string_chars rest
  end.

(** [s.split(sep)]: with the empty separator the string falls into its
    characters. *)
Definition String_split (sep s : string) : list string :=
  match sep with
  | EmptyString => string_chars s
  | _ => split_go sep s 0 EmptyString
  end.

(** [element[i]] on an array. *)
Definition array_at (l : list jsval) (i : Z) : jsval :=
  if i <? 0 then JUndefined else nth (Z.to_nat i) l JUndefined.

(** The transform of [mapStringToArray], lines 267-274. *)
Definition stringToArray_etl (delimiter : string) : callback :=
  fun element =>
    if negb (truthy element) || negb (String.eqb (typeof element) "string")
    then ret element
    else
      match element with
      | JStr s => ret (JArr (List.map JStr (String_split delimiter s)))
      | _ => ret element
      end.

(** The transform of [mapArrayToKV], lines 288-298. *)
Definition arrayToKV_etl (keyIndex valueIndex : Z) : callback :=
  fun element =>
    match element with
    | JArr l =>
        ret (JObj [("key", array_at l keyIndex); ("value", array_at l valueIndex)])
    | _ => ret element
    end.

(** The transform of [mapWrapKafkaPayload], lines 363-371. *)
Definition wrapKafkaPayload_etl : callback :=
  fun message =>
    if String.eqb (typeof message) "object"
    then
      let* v := of_sum (get_prop message "value") in
      if negb (String.eqb (typeof v) "undefined") then ret v else ret message
    else ret message.

(** [mapStringToArray(delimiter = " ")] *)
Definition mapStringToArray (delimiter : option string) : Method retval :=
  DSL.map (stringToArray_etl (default " " delimiter)).

(** [mapArrayToKV(keyIndex = 0, valueIndex = 1)] *)
Definition mapArrayToKV (keyIndex valueIndex : option Z) : Method retval :=
  DSL.map (arrayToKV_etl (default 0 keyIndex) (default 1 valueIndex)).

(** [mapStringToKV(delimiter = " ", keyIndex = 0, valueIndex = 1)] *)
Definition mapStringToKV (delimiter : option string)
    (keyIndex valueIndex : option Z) : Method retval :=
  let delimiter := default " " delimiter in
  let keyIndex := default 0 keyIndex in
  let valueIndex := default 1 valueIndex in
  let* r1 := mapStringToArray (Some delimiter) in
  let* r2 := mapArrayToKV (Some keyIndex) (Some valueIndex) in
  ret RThis.

(** [mapWrapKafkaPayload()] *)
Definition mapWrapKafkaPayload : Method retval :=
  DSL.map wrapKafkaPayload_etl.

(** The function [atThroughput(count = 1, callback)] taps the stream
    with, lines 386-396; [countState] is the variable it closes over.  The
    result is the new [countState] and the message the callback is called
    with, if it is called. *)
Definition atThroughput_tap (count countState : Z) (message : jsval)
  : Z * option jsval :=
  if count <? countState then (countState, None)
  else
    let countState := countState + 1 in
    (countState, if count =? countState then Some message else None).

(** The calls of the callback while the messages pass the tap. *)
Fixpoint atThroughput_calls (count countState : Z) (messages : list jsval)
  : list jsval :=
  match messages with
  | [] => []
  | m :: rest =>
      let '(countState', called) := atThroughput_tap count countState m in
      option_list called ++ atThroughput_calls count countState' rest
  end.

(** What the constructor builds for these arguments, in a state where
    nothing has happened yet. *)
Definition constructed (topicName : jsval) (storage : option storage_obj)
    (kafka : option KafkaClient) (isClone : bool) (ee : nat) : option state :=
  match constructor topicName storage kafka isClone ee with
  | inr h => Some (start h)
  | inl _ => None
  end.

(** The [id] fields of the events. *)
Definition ids_of (events : list jsval) : list (exn + jsval) :=
  List.map (fun e => get_prop e "id") events.

(** The [payload] fields of the events. *)
Definition payloads_of (events : list jsval) : list (exn + jsval) :=
  List.map (fun e => get_prop e "payload") events.

(** A client object with [setupProducer] whose set-up fails. *)
Definition client2 : KafkaClient :=
  {| instanceof_KafkaClient := false;
     setupProducer := Some (SetupFails (Error "no broker"));
     produce_result := fun _ _ => None |}.

(** A transform that throws on every event. *)
Definition failing_etl : callback := fun _ => throw (Error "boom").

(** Six events, 10 to 60. *)
Definition six_events : list jsval :=
  [JNum 10; JNum 20; JNum 30; JNum 40; JNum 50; JNum 60].

(** The stream is neither a map nor a slice: the engine puts a slice on
    top of it as it is. *)
Definition plain_source (s : Stream) : bool :=
  match s with
  | s_map _ _ | s_constant _ _ | s_slice _ _ _ => false
  | _ => true
  end.

(** [A-Z] *)
Definition is_upper (c : ascii) : bool :=
  let n := nat_of_ascii c in (Nat.leb 65 n && Nat.leb n 90)%bool.

(** No character of the string is one of [A-Z]. *)
Fixpoint no_upper (s : string) : bool :=
  match s with
  | EmptyString => true
  | String c rest => negb (is_upper c) && no_upper rest
  end.

(** Two characters are the same letter in whatever case, or the same
    character. *)
Definition ascii_same_ignoring_case (a b : ascii) : bool :=
  Ascii.eqb a b
  || (is_upper a && Ascii.eqb (ascii_of_nat (nat_of_ascii a + 32)) b)
  || (is_upper b && Ascii.eqb (ascii_of_nat (nat_of_ascii b + 32)) a).

(** Two strings are equal up to the case of their letters. *)
Fixpoint same_ignoring_case (s t : string) : bool :=
  match s, t with
  | EmptyString, EmptyString => true
  | String a s', String b t' =>
      ascii_same_ignoring_case a b && same_ignoring_case s' t'
  | _, _ => false
  end.

(** The three produce modes, [Object.keys(PRODUCE_TYPES).map(k => PRODUCE_TYPES[k])]. *)
Definition produce_modes : list string := List.map snd PRODUCE_TYPES.

(** * Properties *)

(** ** The production binding *)

Lemma settle_fresh (ps : list promise_state) (r : promise_state) :
  settle (length ps) r (ps ++ [Pending]) = ps ++ [r].
Proof.
  unfold settle. rewrite lookup_app_r by lia. rewrite Nat.sub_diag. simpl.
  rewrite insert_app_r_alt by lia. rewrite Nat.sub_diag. reflexivity.
Qed.

Lemma to_bound st topic parts pt v c cb :
  produceAsTopic (this st) = true ->
  DSL.to topic parts pt v c cb st
  = Ok (RPromise (length (promises st)))
       (with_promises (fun ps => ps ++ [Rejected already_bound_error]) st).
Proof.
  intros Hb. unfold DSL.to, new_Promise, bind, gets, when. simpl. rewrite Hb.
  unfold throw. unfold with_promises; simpl. rewrite settle_fresh. reflexivity.
Qed.

Lemma not_indexOf_valid (s : string) :
  not_indexOf (List.map snd PRODUCE_TYPES) (JStr s) = negb (valid_mode s).
Proof.
  unfold not_indexOf, valid_mode, PRODUCE_TYPES.
  cbn [List.map snd existsb jsval_eqb].
  rewrite (String.eqb_sym "send"), (String.eqb_sym "buffer"),
    (String.eqb_sym "buffer_format").
  rewrite orb_false_r, orb_assoc. reflexivity.
Qed.

Lemma requested_mode_str pt m :
  requested_mode pt = Some m ->
  exists s, js_or (param_default pt (JStr "send")) (JStr "") = JStr s
            /\ m = toLowerCase s.
Proof.
  unfold requested_mode. destruct (js_or _ _); try discriminate.
  intros [= <-]. eauto.
Qed.

Lemma to_invalid st topic parts pt v c cb m :
  produceAsTopic (this st) = false ->
  requested_mode pt = Some m ->
  valid_mode m = false ->
  DSL.to topic parts pt v c cb st
  = Ok (RPromise (length (promises st)))
       (with_promises (fun ps => ps ++ [Rejected produce_type_error]) st).
Proof.
  intros Hb Hm Hv. apply requested_mode_str in Hm as (s & Hs & ->).
  unfold DSL.to, new_Promise, bind, gets, when. simpl. rewrite Hb.
  unfold ret at 1. rewrite Hs. simpl String_toLowerCase. unfold ret at 1.
  rewrite not_indexOf_valid, Hv. simpl.
  unfold throw. unfold with_promises; simpl. rewrite settle_fresh. reflexivity.
Qed.

Lemma to_plain st topic parts pt v c cb m :
  produceAsTopic (this st) = false ->
  requested_mode pt = Some m ->
  valid_mode m = true ->
  isClone (this st) = false ->
  DSL.to topic parts pt v c cb st
  = Ok (RPromise (length (promises st)))
       (with_promises (fun ps => ps ++ [Fulfilled (JBool true)])
          (with_this (bound_handle topic parts m v c) st)).
Proof.
  intros Hb Hm Hv Hc. apply requested_mode_str in Hm as (s & Hs & ->).
  unfold DSL.to, new_Promise, bind, gets, when. simpl. rewrite Hb.
  unfold ret at 1. rewrite Hs. simpl String_toLowerCase. unfold ret at 1.
  rewrite not_indexOf_valid, Hv. simpl. rewrite Hc. simpl.
  unfold with_promises, with_this, bound_handle; simpl. rewrite settle_fresh.
  reflexivity.
Qed.

Lemma to_clone_without_setup st topic parts pt v c cb m :
  produceAsTopic (this st) = false ->
  requested_mode pt = Some m ->
  valid_mode m = true ->
  isClone (this st) = true ->
  lacks_producer_setup (this st) ->
  DSL.to topic parts pt v c cb st
  = Ok (RPromise (length (promises st)))
       (with_promises (fun ps => ps ++ [Rejected clone_producer_error])
          (with_this (bound_handle topic parts m v c) st)).
Proof.
  intros Hb Hm Hv Hc Hk. apply requested_mode_str in Hm as (s & Hs & ->).
  unfold DSL.to, new_Promise, bind, gets, when. simpl. rewrite Hb.
  unfold ret at 1. rewrite Hs. simpl String_toLowerCase. unfold ret at 1.
  rewrite not_indexOf_valid, Hv. simpl. rewrite Hc. simpl.
  unfold lacks_producer_setup in Hk.
  destruct (kafka (this st)) as [k|]; [rewrite Hk|];
    unfold throw, with_promises, with_this, bound_handle; simpl;
    rewrite settle_fresh; reflexivity.
Qed.

Lemma to_not_string st topic parts pt v c cb :
  produceAsTopic (this st) = false ->
  requested_mode pt = None ->
  DSL.to topic parts pt v c cb st
  = Ok (RPromise (length (promises st)))
       (with_promises
          (fun ps => ps ++ [Rejected (TypeError "produceType.toLowerCase is not a function")])
          st).
Proof.
  intros Hb Hm. unfold requested_mode in Hm.
  unfold DSL.to, new_Promise, bind, gets, when. simpl. rewrite Hb.
  unfold ret at 1.
  destruct (js_or (param_default pt (JStr "send")) (JStr "")); try discriminate;
    simpl; unfold throw, with_promises; simpl; rewrite settle_fresh; reflexivity.
Qed.

Lemma to_clone_with_setup st topic parts pt v c cb m k b :
  produceAsTopic (this st) = false ->
  requested_mode pt = Some m ->
  valid_mode m = true ->
  isClone (this st) = true ->
  kafka (this st) = Some k ->
  setupProducer k = Some b ->
  DSL.to topic parts pt v c cb st
  = Ok (RPromise (length (promises st)))
       (state_after_setup st topic parts m v c cb b).
Proof.
  intros Hb Hm Hv Hc Hk Hs'. apply requested_mode_str in Hm as (s & Hs & ->).
  unfold DSL.to, new_Promise, bind, gets, when. simpl. rewrite Hb.
  unfold ret at 1. rewrite Hs. simpl String_toLowerCase. unfold ret at 1.
  rewrite not_indexOf_valid, Hv. simpl. rewrite Hc, Hk, Hs'. simpl.
  unfold call_setupProducer, bind, modify, DSL.forEach, state_after_setup,
    produce_consumer, bound_handle.
  destruct b as [x|e|]; [| destruct cb |]; simpl;
    rewrite ?length_app, ?Nat.add_1_r;
    unfold with_subscriptions, with_promises, log_setup, log_error, with_this;
    simpl; rewrite ?settle_fresh, ?length_app, ?Nat.add_1_r, <- ?app_assoc;
    simpl; reflexivity.
Qed.

Lemma lookup_last_added {A} (ps : list A) (r : A) :
  (ps ++ [r]) !! length ps = Some r.
Proof. apply list_lookup_middle. reflexivity. Qed.

Lemma lacks_producer_setup_None h : kafka h = None -> lacks_producer_setup h.
Proof. unfold lacks_producer_setup. intros ->. exact I. Qed.

Lemma lacks_producer_setup_Some h k :
  kafka h = Some k -> setupProducer k = None -> lacks_producer_setup h.
Proof. unfold lacks_producer_setup. intros -> H. exact H. Qed.

(** Every way a call of [to] can go, with the state it leaves. *)
Ltac to_cases st pt :=
  let Hb := fresh "Hb" in
  let Hm := fresh "Hm" in
  let Hv := fresh "Hv" in
  let Hc := fresh "Hc" in
  let Hk := fresh "Hk" in
  let Hs := fresh "Hs" in
  let m := fresh "m" in
  let k := fresh "k" in
  let b := fresh "b" in
  destruct (produceAsTopic (this st)) eqn:Hb;
  [ erewrite to_bound by eassumption
  | destruct (requested_mode pt) as [m|] eqn:Hm;
    [ destruct (valid_mode m) eqn:Hv;
      [ destruct (isClone (this st)) eqn:Hc;
        [ destruct (kafka (this st)) as [k|] eqn:Hk;
          [ destruct (setupProducer k) as [b|] eqn:Hs;
            [ erewrite to_clone_with_setup by eassumption
            | erewrite to_clone_without_setup
                by eauto using lacks_producer_setup_Some ]
          | erewrite to_clone_without_setup
              by eauto using lacks_producer_setup_None ]
        | erewrite to_plain by eassumption ]
      | erewrite to_invalid by eassumption ]
    | erewrite to_not_string by eassumption ] ].

(** C1, as amended.  Of two successive calls of [to] on one handle: both
    return a promise; a handle that is bound stays bound; once the handle is
    bound, the second call is rejected with the double-binding error and
    leaves the handle as it was; a first call with a valid produce mode
    leaves the handle bound, whether or not its promise is fulfilled; and a
    first call on an unbound handle that fails the mode validation leaves it
    unbound. *)
Theorem to_binds_at_most_once (st : state)
    (topic parts pt v c : jsval) (cb : option nat)
    (topic2 parts2 pt2 v2 c2 : jsval) (cb2 : option nat) :
  exists p1 st1 p2 st2,
    DSL.to topic parts pt v c cb st = Ok (RPromise p1) st1
    /\ DSL.to topic2 parts2 pt2 v2 c2 cb2 st1 = Ok (RPromise p2) st2
    /\ (produceAsTopic (this st) = true -> produceAsTopic (this st1) = true)
    /\ (produceAsTopic (this st1) = true ->
        promises st2 !! p2 = Some (Rejected already_bound_error)
        /\ this st2 = this st1)
    /\ (forall m, requested_mode pt = Some m -> valid_mode m = true ->
        produceAsTopic (this st1) = true)
    /\ (produceAsTopic (this st) = false ->
        (forall m, requested_mode pt = Some m -> valid_mode m = false) ->
        produceAsTopic (this st1) = false).
Proof.
  assert (Hstep : forall s t p y w z f,
    exists q s', DSL.to t p y w z f s = Ok (RPromise q) s').
  { intros s t p y w z f. to_cases s y; eauto. }
  destruct (Hstep st topic parts pt v c cb) as (p1 & st1 & E1).
  destruct (Hstep st1 topic2 parts2 pt2 v2 c2 cb2) as (p2 & st2 & E2).
  exists p1, st1, p2, st2. split; [exact E1|]. split; [exact E2|].
  split; [|split; [|split]].
  - intros Hb. rewrite (to_bound _ _ _ _ _ _ _ Hb) in E1.
    injection E1 as _ <-. exact Hb.
  - intros Hb. rewrite (to_bound _ _ _ _ _ _ _ Hb) in E2.
    injection E2 as <- <-. simpl. split; [apply lookup_last_added | reflexivity].
  - intros m Hm Hv. revert E1. to_cases st pt; intros [= _ <-]; try assumption;
      try reflexivity; congruence.
  - intros Hb Hinv. revert E1. to_cases st pt; intros [= _ <-]; simpl;
      try assumption; try congruence.
    all: specialize (Hinv _ eq_refl); congruence.
Qed.

(** C1, counterexample.  On a freshly constructed handle, [to] with the
    mode "bogus" is rejected with the produce-mode error, and the next call
    of [to] on the same handle is fulfilled with [true]: a failed call does
    not make the following one fail. *)
Lemma to_rebinds_after_invalid_mode :
  match constructor (JStr "in") (Some storage0) (Some client0) false 0 with
  | inl _ => False
  | inr h =>
      match DSL.to (JStr "out") JUndefined (JStr "bogus") JUndefined JUndefined
              None (start h) with
      | Ok (RPromise p1) st1 =>
          promises st1 !! p1 = Some (Rejected produce_type_error)
          /\ match DSL.to (JStr "out") JUndefined JUndefined JUndefined
                     JUndefined None st1 with
             | Ok (RPromise p2) st2 =>
                 promises st2 !! p2 = Some (Fulfilled (JBool true))
             | _ => False
             end
      | _ => False
      end
  end.
Proof. vm_compute. split; reflexivity. Qed.

Lemma requested_mode_JStr (s : string) :
  requested_mode (JStr s) = Some (toLowerCase s).
Proof.
  unfold requested_mode, js_or. simpl. destruct s; reflexivity.
Qed.

Lemma error_msg_inj a b : Error a = Error b -> a = b.
Proof. intros [= H]. exact H. Qed.

Lemma produce_type_error_not_clone : clone_producer_error <> produce_type_error.
Proof. intros H. apply error_msg_inj in H. discriminate H. Qed.

Lemma to_validates_lowered (st : state) (topic parts : jsval) (s : string)
    (v c : jsval) (cb : option nat) :
  produceAsTopic (this st) = false ->
  exists p st',
    DSL.to topic parts (JStr s) v c cb st = Ok (RPromise p) st'
    /\ (valid_mode (toLowerCase s) = false ->
        promises st' !! p = Some (Rejected produce_type_error)
        /\ this st' = this st)
    /\ (valid_mode (toLowerCase s) = true ->
        promises st' !! p <> Some (Rejected produce_type_error)
        /\ produceType (this st') = JStr (toLowerCase s)).
Proof.
  intros Hb. pose proof (requested_mode_JStr s) as Hm.
  destruct (valid_mode (toLowerCase s)) eqn:Hv.
  - destruct (isClone (this st)) eqn:Hc.
    + destruct (kafka (this st)) as [k|] eqn:Hk;
        [destruct (setupProducer k) as [b|] eqn:Hs|].
      * erewrite to_clone_with_setup by eassumption.
        eexists _, _. split; [reflexivity|]. split; [discriminate|].
        intros _. split; [|reflexivity]. unfold state_after_setup; simpl.
        rewrite list_lookup_middle by reflexivity. destruct b; discriminate.
      * erewrite to_clone_without_setup
          by eauto using lacks_producer_setup_Some.
        eexists _, _. split; [reflexivity|]. split; [discriminate|].
        intros _. split; [|reflexivity]. simpl. rewrite lookup_last_added.
        discriminate.
      * erewrite to_clone_without_setup
          by eauto using lacks_producer_setup_None.
        eexists _, _. split; [reflexivity|]. split; [discriminate|].
        intros _. split; [|reflexivity]. simpl. rewrite lookup_last_added.
        discriminate.
    + erewrite to_plain by eassumption.
      eexists _, _. split; [reflexivity|]. split; [discriminate|].
      intros _. split; [|reflexivity]. simpl. rewrite lookup_last_added.
      discriminate.
  - erewrite to_invalid by eassumption.
    eexists _, _. split; [reflexivity|]. split; [|discriminate].
    intros _. simpl. split; [apply lookup_last_added | reflexivity].
Qed.

Lemma lower_ascii_unfold (a : ascii) :
  lower_ascii a
  = if is_upper a then ascii_of_nat (nat_of_ascii a + 32) else a.
Proof. reflexivity. Qed.

Lemma lower_ascii_of_same (a b : ascii) :
  is_upper b = false ->
  ascii_same_ignoring_case a b = true ->
  lower_ascii a = b.
Proof.
  unfold ascii_same_ignoring_case. intros Hb H. rewrite Hb in H.
  cbn [andb] in H. rewrite orb_false_r in H.
  rewrite lower_ascii_unfold.
  apply orb_true_iff in H as [H|H].
  - apply Ascii.eqb_eq in H. subst b. rewrite Hb. reflexivity.
  - apply andb_true_iff in H as [Ha H]. apply Ascii.eqb_eq in H.
    rewrite Ha. exact H.
Qed.

Lemma same_as_lower_ascii (a : ascii) :
  ascii_same_ignoring_case a (lower_ascii a) = true.
Proof.
  unfold ascii_same_ignoring_case. rewrite lower_ascii_unfold.
  destruct (is_upper a) eqn:Ha.
  - rewrite Ascii.eqb_refl. cbn [andb]. rewrite orb_true_r. reflexivity.
  - rewrite Ascii.eqb_refl. reflexivity.
Qed.

Lemma toLowerCase_of_same (s : string) :
  forall m, no_upper m = true -> same_ignoring_case s m = true ->
            toLowerCase s = m.
Proof.
  induction s as [|a s IH]; intros [|b m] Hm H; try discriminate.
  - reflexivity.
  - cbn [no_upper] in Hm. apply andb_true_iff in Hm as [Hb Hm].
    apply negb_true_iff in Hb.
    cbn [same_ignoring_case] in H. apply andb_true_iff in H as [Hab H].
    cbn [toLowerCase]. rewrite (lower_ascii_of_same a b Hb Hab).
    rewrite (IH m Hm H). reflexivity.
Qed.

Lemma same_as_toLowerCase (s : string) :
  same_ignoring_case s (toLowerCase s) = true.
Proof.
  induction s as [|a s IH]; [reflexivity|].
  cbn [toLowerCase same_ignoring_case]. rewrite same_as_lower_ascii, IH.
  reflexivity.
Qed.

Lemma valid_mode_listed (m : string) :
  valid_mode m = true -> In m produce_modes.
Proof.
  unfold valid_mode. intros H.
  apply orb_true_iff in H as [H|H]; [apply orb_true_iff in H as [H|H]|];
    apply String.eqb_eq in H; subst; simpl; auto.
Qed.

Lemma produce_modes_cases (m : string) :
  In m produce_modes -> m = "send" \/ m = "buffer" \/ m = "buffer_format".
Proof.
  intros [H | [H | [H | []]]]; subst; auto.
Qed.

(** C2.  On an unbound handle, [to] with a string produce mode [s] returns
    a promise.  When [s] is one of send, buffer, buffer_format up to the case
    of its letters, the produce-mode error is not raised and the handle keeps
    that mode in lower case; when [s] is none of the three in any letter
    case, the promise is rejected with the error naming the three and the
    handle is unchanged.  The mode the handle keeps is the lower-cased [s]. *)
Theorem to_validates_mode (st : state) (topic parts : jsval) (s : string)
    (v c : jsval) (cb : option nat) :
  produceAsTopic (this st) = false ->
  exists p st',
    DSL.to topic parts (JStr s) v c cb st = Ok (RPromise p) st'
    /\ (forall m, In m produce_modes -> same_ignoring_case s m = true ->
        promises st' !! p <> Some (Rejected produce_type_error)
        /\ produceType (this st') = JStr m)
    /\ ((forall m, In m produce_modes -> same_ignoring_case s m = false) ->
        promises st' !! p = Some (Rejected produce_type_error)
        /\ this st' = this st)
    /\ (valid_mode (toLowerCase s) = false ->
        promises st' !! p = Some (Rejected produce_type_error)
        /\ this st' = this st)
    /\ (valid_mode (toLowerCase s) = true ->
        promises st' !! p <> Some (Rejected produce_type_error)
        /\ produceType (this st') = JStr (toLowerCase s)).
Proof.
  intros Hb.
  destruct (to_validates_lowered st topic parts s v c cb Hb)
    as (p & st' & E & Hinv & Hval).
  exists p, st'. split; [exact E|]. split; [|split; [|split]].
  - intros m Hin Hsame.
    assert (Hlow : toLowerCase s = m).
    { apply toLowerCase_of_same; [|exact Hsame].
      destruct (produce_modes_cases m Hin) as [-> | [-> | ->]]; reflexivity. }
    rewrite <- Hlow. apply Hval. rewrite Hlow.
    destruct (produce_modes_cases m Hin) as [-> | [-> | ->]]; reflexivity.
  - intros Hnone. apply Hinv.
    destruct (valid_mode (toLowerCase s)) eqn:Hv; [|reflexivity].
    pose proof (same_as_toLowerCase s) as Hsame.
    rewrite Hnone in Hsame; [discriminate|].
    apply valid_mode_listed. exact Hv.
  - exact Hinv.
  - exact Hval.
Qed.

(** C3.  On a clone whose broker client is absent or has no
    [setupProducer], every call of [to] returns a rejected promise and
    attaches no consumer: the subscriptions, the producer set-ups, the
    produced messages and the world are untouched.  For a mode that is a
    string (or defaulted) the error is one of the three configuration errors,
    and on an unbound handle with a valid mode it is the clone error. *)
Theorem clone_without_producer_setup_rejected (st : state)
    (topic parts pt v c : jsval) (cb : option nat) :
  isClone (this st) = true ->
  lacks_producer_setup (this st) ->
  exists p st' e,
    DSL.to topic parts pt v c cb st = Ok (RPromise p) st'
    /\ promises st' !! p = Some (Rejected e)
    /\ subscriptions st' = subscriptions st
    /\ setup_calls st' = setup_calls st
    /\ produced st' = produced st
    /\ env st' = env st
    /\ (requested_mode pt <> None -> is_configuration_error e)
    /\ (produceAsTopic (this st) = false ->
        forall m, requested_mode pt = Some m -> valid_mode m = true ->
        e = clone_producer_error).
Proof.
  intros Hclone Hlacks. unfold is_configuration_error.
  destruct (produceAsTopic (this st)) eqn:Hb.
  - rewrite (to_bound _ _ _ _ _ _ _ Hb).
    eexists _, _, _. split; [reflexivity|]. simpl.
    split; [apply lookup_last_added|]. repeat split; auto. discriminate.
  - destruct (requested_mode pt) as [m|] eqn:Hm.
    + destruct (valid_mode m) eqn:Hv.
      * erewrite to_clone_without_setup by eassumption.
        eexists _, _, _. split; [reflexivity|]. simpl.
        split; [apply lookup_last_added|]. repeat split; auto.
      * erewrite to_invalid by eassumption.
        eexists _, _, _. split; [reflexivity|]. simpl.
        split; [apply lookup_last_added|]. repeat split; auto.
        intros _ m' [= <-] Hv'. congruence.
    + erewrite to_not_string by eassumption.
      eexists _, _, _. split; [reflexivity|]. simpl.
      split; [apply lookup_last_added|]. repeat split; auto.
      * intros H. contradiction.
      * discriminate.
Qed.

(** C10.  On an unbound clone without producer set-up, [to] with a valid
    mode is rejected with the clone error after the six binding fields were
    assigned: the handle is left bound, with the requested topic, partition
    count, lower-cased mode, version and compression type, so it differs
    from the handle before the call, and every later [to] is rejected as a
    double binding. *)
Theorem failed_clone_binding_leaves_handle_bound (st : state)
    (topic parts pt v c : jsval) (cb : option nat) (m : string) :
  isClone (this st) = true ->
  lacks_producer_setup (this st) ->
  produceAsTopic (this st) = false ->
  requested_mode pt = Some m ->
  valid_mode m = true ->
  exists p st',
    DSL.to topic parts pt v c cb st = Ok (RPromise p) st'
    /\ promises st' !! p = Some (Rejected clone_producer_error)
    /\ produceAsTopic (this st') = true
    /\ outputTopicName (this st') = topic
    /\ outputPartitionsCount (this st') = param_default parts (JNum 1)
    /\ produceType (this st') = JStr m
    /\ produceVersion (this st') = param_default v (JNum 1)
    /\ produceCompressionType (this st') = param_default c (JNum 0)
    /\ this st' <> this st
    /\ forall topic2 parts2 pt2 v2 c2 cb2,
         exists p2 st2,
           DSL.to topic2 parts2 pt2 v2 c2 cb2 st' = Ok (RPromise p2) st2
           /\ promises st2 !! p2 = Some (Rejected already_bound_error).
Proof.
  intros Hclone Hlacks Hb Hm Hv.
  erewrite to_clone_without_setup by eassumption.
  eexists _, _. split; [reflexivity|]. simpl.
  split; [apply lookup_last_added|]. repeat split.
  - intros H. apply (f_equal produceAsTopic) in H. simpl in H. congruence.
  - intros topic2 parts2 pt2 v2 c2 cb2. rewrite to_bound by reflexivity.
    eexists _, _. split; [reflexivity|]. simpl. apply lookup_last_added.
Qed.

(** C7, counterexample.  [to] with an invalid produce mode does not throw:
    the call returns a promise, and the configuration error is the reason
    this promise is rejected with. *)
Lemma to_configuration_error_is_a_rejection :
  match constructor (JStr "in") (Some storage0) (Some client0) false 0 with
  | inl _ => False
  | inr h =>
      match DSL.to (JStr "out") JUndefined (JStr "bogus") JUndefined JUndefined
              None (start h) with
      | Ok (RPromise p) st' =>
          promises st' !! p = Some (Rejected produce_type_error)
      | Ok RThis _ => False
      | Throw _ _ => False
      | Unmodelled => False
      end
  end.
Proof. vm_compute. reflexivity. Qed.

(** C7, as amended.  The constructor throws at the call when the broker
    client of a non-clone or the store is missing or of the wrong kind, and
    returns a handle otherwise.  [to] never throws: it always returns a
    promise, and double binding, an invalid produce mode and a clone without
    producer set-up each reject that promise with their configuration
    error. *)
Theorem fatal_errors_delivery :
  (forall topicName storage kafka isClone ee,
      (isClone = false -> missing_client kafka ->
       constructor topicName storage kafka isClone ee
       = inl (Error "kafka has to be an instance of KafkaClient."))
      /\ (missing_storage storage ->
          exists e, constructor topicName storage kafka isClone ee = inl e)
      /\ ((isClone = true \/ ~ missing_client kafka) ->
          ~ missing_storage storage ->
          exists h, constructor topicName storage kafka isClone ee = inr h))
  /\ (forall st topic parts pt v c cb,
        exists p st',
          DSL.to topic parts pt v c cb st = Ok (RPromise p) st'
          /\ (produceAsTopic (this st) = true ->
              promises st' !! p = Some (Rejected already_bound_error))
          /\ (produceAsTopic (this st) = false ->
              forall m, requested_mode pt = Some m -> valid_mode m = false ->
              promises st' !! p = Some (Rejected produce_type_error))
          /\ (produceAsTopic (this st) = false ->
              forall m, requested_mode pt = Some m -> valid_mode m = true ->
              isClone (this st) = true -> lacks_producer_setup (this st) ->
              promises st' !! p = Some (Rejected clone_producer_error))).
Proof.
  split.
  - intros topicName storage kafka isClone ee. split; [|split].
    + intros -> Hk. unfold constructor. simpl.
      destruct kafka as [k|]; simpl in Hk; [rewrite Hk|]; reflexivity.
    + intros Hs. unfold constructor.
      destruct (negb isClone && _); [eauto|].
      destruct storage as [s|]; simpl in Hs; [rewrite Hs; simpl|]; eauto.
    + intros Hk Hs. unfold constructor.
      assert (negb isClone
              && match kafka with
                 | Some k => negb (instanceof_KafkaClient k)
                 | None => true
                 end = false) as ->.
      { destruct Hk as [-> | Hk]; [reflexivity|].
        apply andb_false_iff. right.
        destruct kafka as [k|]; simpl in Hk; [|tauto].
        destruct (instanceof_KafkaClient k); [reflexivity | tauto]. }
      destruct storage as [s|]; simpl in Hs; [|tauto].
      destruct (instanceof_KStorage s); [simpl; eauto | tauto].
  - intros st topic parts pt v c cb.
    destruct (produceAsTopic (this st)) eqn:Hb.
    + rewrite (to_bound _ _ _ _ _ _ _ Hb). eexists _, _.
      split; [reflexivity|]. simpl. repeat split; try discriminate.
      intros _. apply lookup_last_added.
    + destruct (requested_mode pt) as [m|] eqn:Hm.
      * destruct (valid_mode m) eqn:Hv.
        -- destruct (isClone (this st)) eqn:Hc.
           ++ destruct (kafka (this st)) as [k|] eqn:Hk;
                [destruct (setupProducer k) as [b|] eqn:Hs|].
              ** erewrite to_clone_with_setup by eassumption. eexists _, _.
                 split; [reflexivity|]. repeat split; try discriminate.
                 --- intros _ m' [= <-]. congruence.
                 --- intros _ m' _ _ _ Hl. unfold lacks_producer_setup in Hl.
                     rewrite Hk in Hl. congruence.
              ** erewrite to_clone_without_setup
                   by eauto using lacks_producer_setup_Some. eexists _, _.
                 split; [reflexivity|]. simpl. repeat split; try discriminate.
                 --- intros _ m' [= <-]. congruence.
                 --- intros. apply lookup_last_added.
              ** erewrite to_clone_without_setup
                   by eauto using lacks_producer_setup_None. eexists _, _.
                 split; [reflexivity|]. simpl. repeat split; try discriminate.
                 --- intros _ m' [= <-]. congruence.
                 --- intros. apply lookup_last_added.
           ++ erewrite to_plain by eassumption. eexists _, _.
              split; [reflexivity|]. simpl. repeat split; try discriminate.
              intros _ m' [= <-]. congruence.
        -- erewrite to_invalid by eassumption. eexists _, _.
           split; [reflexivity|]. simpl. repeat split; try discriminate.
           ++ intros. apply lookup_last_added.
           ++ intros _ m' [= <-]. congruence.
      * erewrite to_not_string by eassumption. eexists _, _.
        split; [reflexivity|]. simpl. repeat split; discriminate.
Qed.

(** ** The DSL operators *)

(** C6.  Each of the nineteen operators returns the handle it was called
    on, and the state afterwards is the state before with only the held
    stream rewrapped: topic name, clone flag, store, broker client, emitter
    and all production-binding fields are unchanged, and so is everything
    outside the handle. *)
Theorem operators_rewrap_only_the_source (c : operator_call) (st : state) :
  exists (f : Stream -> Stream) (st' : state),
    invoke c st = Ok RThis st'
    /\ st' = with_this (set_stream f) st
    /\ topicName (this st') = topicName (this st)
    /\ isClone (this st') = isClone (this st)
    /\ storage (this st') = storage (this st)
    /\ kafka (this st') = kafka (this st)
    /\ _ee (this st') = _ee (this st)
    /\ _kafkaStreams (this st') = _kafkaStreams (this st)
    /\ produceAsTopic (this st') = produceAsTopic (this st)
    /\ outputTopicName (this st') = outputTopicName (this st)
    /\ outputPartitionsCount (this st') = outputPartitionsCount (this st)
    /\ produceType (this st') = produceType (this st)
    /\ produceVersion (this st') = produceVersion (this st)
    /\ produceCompressionType (this st') = produceCompressionType (this st)
    /\ env st' = env st
    /\ promises st' = promises st
    /\ subscriptions st' = subscriptions st
    /\ setup_calls st' = setup_calls st
    /\ produced st' = produced st
    /\ error_callbacks st' = error_callbacks st.
Proof.
  destruct c;
    try match goal with e : option callback |- _ => destruct e end;
    (eexists _, _; split; [reflexivity|]; split; [reflexivity|];
     simpl; repeat split; reflexivity).
Qed.

(** ** The format round trip *)

Lemma toFormat_builds_envelope (type : jsval) (getId : option callback)
    (v : jsval) (w : world) :
  returns_on getId v w ->
  exists id w',
    toFormat_etl type getId v w
    = Ok (JObj [("payload", v); ("time", JStr (Date_toISOString w'));
                ("type", type); ("id", id)]) w'.
Proof.
  intros H. unfold toFormat_etl, bind, gets, ret.
  destruct getId as [g|]; simpl in H.
  - destruct H as (i & w' & Hg). rewrite Hg. eexists _, _. reflexivity.
  - eexists _, _. reflexivity.
Qed.

Lemma fromFormat_unwraps (fs : list (string * jsval)) (w : world) :
  fromFormat_etl (JObj fs) w = Ok (default JUndefined (assoc "payload" fs)) w.
Proof. reflexivity. Qed.

(** C4.  Let the stream of a handle let out [v] for an emitted event, and
    let the id extractor, if one is given, return on [v].  After
    [mapToFormat(type, getId)] and [mapFromFormat()] the stream lets out [v]
    again for that event: the first transform builds the envelope whose
    payload is [v], the second unwraps it to [v]. *)
Theorem format_round_trip (st : state) (type : jsval)
    (getId : option callback) (ee : nat) (x v : jsval) (w w1 : world)
    (r : step) :
  push (stream (this st)) ee x w = Ok r w1 ->
  out r = Some v ->
  returns_on getId v w1 ->
  exists st1 st2 envelope w2 r',
    DSL.mapToFormat type getId st = Ok RThis st1
    /\ DSL.mapFromFormat st1 = Ok RThis st2
    /\ toFormat_etl (param_default type (JStr "unknown-publish")) getId v w1
       = Ok envelope w2
    /\ get_prop envelope "payload" = inr v
    /\ fromFormat_etl envelope w2 = Ok v w2
    /\ push (stream (this st2)) ee x w = Ok r' w2
    /\ out r' = Some v.
Proof.
  intros Hpush Hout Hid.
  destruct (toFormat_builds_envelope
              (param_default type (JStr "unknown-publish")) getId v w1 Hid)
    as (id & w2 & Henv).
  eexists _, _, _, w2, _. split; [reflexivity|]. split; [reflexivity|].
  split; [exact Henv|]. split; [reflexivity|]. split; [reflexivity|].
  cbn -[fromFormat_etl toFormat_etl]. unfold bind.
  rewrite Hpush, Hout. cbn -[fromFormat_etl toFormat_etl]. unfold bind.
  rewrite Henv. unfold ret at 1. cbn -[fromFormat_etl toFormat_etl].
  rewrite fromFormat_unwraps. split; reflexivity.
Qed.

(** ** [skip] followed by [take] *)

Lemma feed_slice (ee : nat) (vs : list jsval) :
  forall s sk tk w s' outs e w',
    feed s ee vs w = Ok (s', outs, e) w' ->
    exists s'' e'' w'',
      feed (s_slice sk tk s) ee vs w = Ok (s'', slice_list sk tk outs, e'') w''.
Proof.
  induction vs as [|v rest IH]; intros s sk tk w s' outs e w' H.
  - injection H as <- <- <- <-. simpl. unfold ret. eauto.
  - cbn [feed] in H. unfold bind in H.
    destruct (push s ee v w) as [r w1| |] eqn:Hp; try discriminate.
    cbn [feed push]. unfold bind. rewrite Hp.
    destruct (ended r) eqn:He.
    + injection H as <- <- <- <-.
      destruct (out r) as [x|]; simpl.
      * destruct (slice_event sk tk x) as [[[sk' tk'] o] e0]. unfold ret.
        cbn [ended next out]. rewrite orb_true_r.
        destruct e0; rewrite app_nil_r; eauto.
      * unfold ret. cbn [ended next out]. eauto.
    + destruct (feed (next r) ee rest w1) as [[[s1 outs1] e1] w2| |] eqn:Hf;
        try discriminate.
      injection H as <- <- <- <-.
      destruct (out r) as [x|]; simpl.
      * destruct (slice_event sk tk x) as [[[sk' tk'] o] e0]. unfold ret.
        cbn [ended next out]. rewrite orb_false_r. destruct e0.
        -- rewrite app_nil_r. eauto.
        -- destruct (IH _ sk' tk' _ _ _ _ _ Hf) as (s'' & e'' & w'' & ->).
           eauto.
      * unfold ret. cbn [ended next out].
        destruct (IH _ sk tk _ _ _ _ _ Hf) as (s'' & e'' & w'' & ->). eauto.
Qed.

Lemma slice_list_skip (n : nat) (xs : list jsval) :
  slice_list (Z.of_nat n) Infinity xs = skipn n xs.
Proof.
  revert n. induction xs as [|x rest IH]; intros n.
  - destruct n; reflexivity.
  - cbn [slice_list]. unfold slice_event. destruct n as [|n'].
    + simpl. f_equal. apply (IH 0%nat).
    + replace (0 <? Z.of_nat (S n')) with true by (symmetry; apply Z.ltb_lt; lia).
      replace (Z.of_nat (S n') - 1) with (Z.of_nat n') by lia.
      simpl. apply IH.
Qed.

Lemma slice_list_take (m : nat) (xs : list jsval) :
  (0 < m)%nat -> slice_list 0 (Fin (Z.of_nat m)) xs = firstn m xs.
Proof.
  revert m. induction xs as [|x rest IH]; intros m Hm.
  - destruct m; reflexivity.
  - cbn [slice_list]. unfold slice_event. destruct m as [|m']; [lia|].
    cbn [Z.ltb Z.compare bound_is_zero dec_bound].
    replace (Z.of_nat (S m') =? 0) with false by (symmetry; apply Z.eqb_neq; lia).
    replace (Z.of_nat (S m') - 1) with (Z.of_nat m') by lia.
    cbn [option_list app firstn]. f_equal.
    destruct m' as [|m''].
    + simpl. destruct rest; reflexivity.
    + replace (Z.of_nat (S m'') =? 0) with false
        by (symmetry; apply Z.eqb_neq; lia).
      apply IH. lia.
Qed.

Lemma feed_empty (ee : nat) (vs : list jsval) (w : world) :
  exists e, feed s_empty ee vs w = Ok (s_empty, [], e) w.
Proof. destruct vs; simpl; eauto. Qed.


(** ** Counting by key *)



(** ** Dispatch to the broker *)

Lemma valid_mode_cases (m : string) :
  valid_mode m = true -> m = "send" \/ m = "buffer" \/ m = "buffer_format".
Proof.
  unfold valid_mode. intros H.
  apply orb_true_iff in H as [H|H]; [apply orb_true_iff in H as [H|H]|];
    apply String.eqb_eq in H; auto.
Qed.

Lemma produce_message_dispatches (c : consumer) (x : jsval) (st : state)
    (k : KafkaClient) (m : string) :
  kafka (this st) = Some k ->
  produceType (this st) = JStr m ->
  valid_mode m = true ->
  let call := dispatch_call m (outputTopicName (this st)) (c_version c)
                (c_compressionType c) x in
  exists st',
    produce_message c x st = Ok tt st'
    /\ this st' = this st /\ env st' = env st
    /\ promises st' = promises st
    /\ subscriptions st' = subscriptions st
    /\ setup_calls st' = setup_calls st
    /\ produced st' = produced st ++ [call]
    /\ error_callbacks st'
       = error_callbacks st
         ++ reported (c_producerErrorCallback c)
              (rejections k (length (produced st)) [call]).
Proof.
  intros Hk Hm Hv call. unfold produce_message, bind, gets. rewrite Hk, Hm.
  assert (Hcall :
    (if jsval_eqb (JStr m) (JStr PRODUCE_TYPES_SEND)
     then Some (call_send (outputTopicName (this st)) x)
     else if jsval_eqb (JStr m) (JStr PRODUCE_TYPES_BUFFER)
     then Some (call_buffer (outputTopicName (this st)) JNull x (c_compressionType c))
     else if jsval_eqb (JStr m) (JStr PRODUCE_TYPES_BUFFER_FORMAT)
     then Some (call_bufferFormat (outputTopicName (this st)) JNull x
                  (c_version c) (c_compressionType c))
     else None) = Some call).
  { subst call. destruct (valid_mode_cases m Hv) as [-> | [-> | ->]]; reflexivity. }
  rewrite Hcall. unfold modify at 1. cbn [produced log_produced].
  cbn [rejections]. rewrite app_nil_r.
  destruct (produce_result k call (length (produced st))) as [e|];
    destruct (c_producerErrorCallback c) as [f|]; simpl;
    eexists; (split; [reflexivity|]); simpl; rewrite ?app_nil_r;
    repeat split; reflexivity.
Qed.

Lemma write_one (c : consumer) (k : KafkaClient) (m : string) (v : jsval)
    (s : Stream) (st : state) (q : nat) (r : step) (w1 : world) :
  subscriptions st = [produce_sub s c SubActive q] ->
  kafka (this st) = Some k ->
  produceType (this st) = JStr m ->
  valid_mode m = true ->
  push s (_ee (this st)) v (env st) = Ok r w1 ->
  let calls := List.map (dispatch_call m (outputTopicName (this st))
                           (c_version c) (c_compressionType c))
                 (option_list (out r)) in
  exists st',
    DSL.writeToStream v st = Ok tt st'
    /\ this st' = this st /\ env st' = w1
    /\ setup_calls st' = setup_calls st
    /\ produced st' = produced st ++ calls
    /\ error_callbacks st'
       = error_callbacks st
         ++ reported (c_producerErrorCallback c)
              (rejections k (length (produced st)) calls)
    /\ subscriptions st'
       = [produce_sub (next r) c (if ended r then SubEnded else SubActive) q].
Proof.
  intros Hsubs Hk Hm Hv Hpush calls.
  unfold DSL.writeToStream, bind, gets. rewrite Hsubs.
  cbn -[push produce_message]. unfold bind, in_world.
  cbn -[push produce_message]. rewrite Hpush. subst calls.
  destruct (out r) as [x|]; cbn -[push produce_message].
  - destruct (produce_message_dispatches c x (with_env (fun _ => w1) st) k m
                Hk Hm Hv) as (st2 & E & Hthis & Henv & Hps & Hsu & Hsc & Hpr & Her).
    rewrite E. simpl in Hthis, Henv, Hsc, Hpr, Her.
    destruct (ended r); simpl; eexists; (split; [reflexivity|]); simpl;
      repeat split; assumption.
  - destruct (c_producerErrorCallback c); destruct (ended r); simpl;
      eexists; (split; [reflexivity|]); simpl; rewrite ?app_nil_r;
      repeat split; reflexivity.
Qed.

Lemma write_all_idle (vs : list jsval) (st : state) (s : Stream) (c : consumer)
    (q : nat) :
  subscriptions st = [produce_sub s c SubEnded q] ->
  write_all vs st = Ok tt st.
Proof.
  intros Hsubs. induction vs as [|v rest IH]; [reflexivity|].
  cbn [write_all]. unfold bind at 1.
  assert (DSL.writeToStream v st = Ok tt st) as ->; [|exact IH].
  unfold DSL.writeToStream, bind, gets. rewrite Hsubs. simpl.
  destruct st; simpl in *; subst. reflexivity.
Qed.

Lemma rejections_app (k : KafkaClient) (i : nat) (xs ys : list kafka_call) :
  rejections k i (xs ++ ys)
  = rejections k i xs ++ rejections k (i + length xs) ys.
Proof.
  revert i. induction xs as [|x xs IH]; intros i; simpl.
  - rewrite Nat.add_0_r. reflexivity.
  - rewrite IH, <- app_assoc. f_equal. f_equal.
    replace (S i + length xs)%nat with (i + S (length xs))%nat by lia.
    reflexivity.
Qed.

Lemma reported_app (cb : option nat) (xs ys : list exn) :
  reported cb (xs ++ ys) = reported cb xs ++ reported cb ys.
Proof. destruct cb; simpl; [apply List.map_app | reflexivity]. Qed.

Lemma write_all_dispatches (c : consumer) (k : KafkaClient) (m : string)
    (vs : list jsval) :
  forall (s : Stream) (st : state) (q : nat) (s' : Stream)
         (outs : list jsval) (e : bool) (w' : world),
    subscriptions st = [produce_sub s c SubActive q] ->
    kafka (this st) = Some k ->
    produceType (this st) = JStr m ->
    valid_mode m = true ->
    feed s (_ee (this st)) vs (env st) = Ok (s', outs, e) w' ->
    let calls := List.map (dispatch_call m (outputTopicName (this st))
                             (c_version c) (c_compressionType c)) outs in
    exists st',
      write_all vs st = Ok tt st'
      /\ this st' = this st /\ env st' = w'
      /\ setup_calls st' = setup_calls st
      /\ produced st' = produced st ++ calls
      /\ error_callbacks st'
         = error_callbacks st
           ++ reported (c_producerErrorCallback c)
                (rejections k (length (produced st)) calls)
      /\ subscriptions st'
         = [produce_sub s' c (if e then SubEnded else SubActive) q].
Proof.
  induction vs as [|v rest IH];
    intros s st q s' outs e w' Hsubs Hk Hm Hv Hfeed calls; subst calls.
  - injection Hfeed as <- <- <- <-. exists st. simpl.
    destruct (c_producerErrorCallback c); simpl; rewrite !app_nil_r;
      repeat split; auto.
  - cbn [feed] in Hfeed. unfold bind in Hfeed.
    destruct (push s (_ee (this st)) v (env st)) as [r w1| |] eqn:Hp;
      try discriminate.
    destruct (write_one c k m v s st q r w1 Hsubs Hk Hm Hv Hp)
      as (st1 & E1 & Hthis & Henv & Hsc & Hpr & Her & Hsu).
    cbn [write_all]. unfold bind at 1. rewrite E1.
    destruct (ended r) eqn:He.
    + injection Hfeed as <- <- <- <-.
      rewrite (write_all_idle rest st1 _ _ _ Hsu).
      exists st1. repeat split; assumption.
    + destruct (feed (next r) (_ee (this st)) rest w1)
        as [[[s1 outs1] e1] w2| |] eqn:Hf; try discriminate.
      injection Hfeed as <- <- <- <-.
      rewrite <- Hthis, <- Henv in Hf.
      rewrite <- Hthis in Hk, Hm.
      destruct (IH _ st1 q _ _ _ _ Hsu Hk Hm Hv Hf)
        as (st2 & E2 & Hthis2 & Henv2 & Hsc2 & Hpr2 & Her2 & Hsu2).
      exists st2. split; [exact E2|].
      rewrite Hthis in Hthis2, Hpr2, Her2.
      repeat split; try congruence.
      * rewrite Hpr2, Hpr, List.map_app, app_assoc. reflexivity.
      * rewrite Her2, Her, Hpr, List.map_app, rejections_app, reported_app,
          length_app, List.length_map, app_assoc. reflexivity.
Qed.

(** C5.  On an unbound clone with a producer-set-up capable client and no
    other consumer, let [to] be called with a valid mode, and let the stream
    let out [outs] while [vs] are written to it.  Then each event of [outs]
    leads to exactly one produce call, of the kind the mode selects, in
    order; the rejections of these calls are handed to the error callback
    when one was given and dropped otherwise; and the consumer stays
    subscribed unless the stream itself ended. *)
Theorem production_dispatch_policy (st : state)
    (topic parts pt v c : jsval) (cb : option nat)
    (k : KafkaClient) (b : setup_behaviour) (m : string)
    (vs outs : list jsval) (s' : Stream) (e : bool) (w' : world) :
  isClone (this st) = true ->
  kafka (this st) = Some k ->
  setupProducer k = Some b ->
  produceAsTopic (this st) = false ->
  requested_mode pt = Some m ->
  valid_mode m = true ->
  subscriptions st = [] ->
  feed (stream (this st)) (_ee (this st)) vs (env st) = Ok (s', outs, e) w' ->
  let calls := List.map (dispatch_call m topic (param_default v (JNum 1))
                           (param_default c (JNum 0))) outs in
  exists p st1 st2 sub,
    DSL.to topic parts pt v c cb st = Ok (RPromise p) st1
    /\ write_all vs st1 = Ok tt st2
    /\ produced st1 = produced st
    /\ produced st2 = produced st ++ calls
    /\ length (produced st2) = (length (produced st) + length outs)%nat
    /\ error_callbacks st2
       = error_callbacks st1
         ++ reported cb (rejections k (length (produced st)) calls)
    /\ subscriptions st2 = [sub]
    /\ sub_observer sub = each_produce (produce_consumer v c cb)
    /\ sub_state sub = (if e then SubEnded else SubActive).
Proof.
  intros Hclone Hk Hs Hb Hm Hv Hsubs Hfeed calls.
  rewrite (to_clone_with_setup st topic parts pt v c cb m k b Hb Hm Hv Hclone Hk Hs).
  set (st1 := state_after_setup st topic parts m v c cb b).
  assert (Hsu1 : subscriptions st1
                 = [produce_sub (stream (this st)) (produce_consumer v c cb)
                      SubActive (S (length (promises st)))]).
  { unfold st1, state_after_setup. simpl. rewrite Hsubs. reflexivity. }
  destruct (write_all_dispatches (produce_consumer v c cb) k m vs
              (stream (this st)) st1 (S (length (promises st))) s' outs e w'
              Hsu1 Hk eq_refl Hv Hfeed)
    as (st2 & E2 & Hthis & Henv & Hsc & Hpr & Her & Hsu).
  simpl in Hpr, Her.
  eexists _, st1, st2, _. split; [reflexivity|]. split; [exact E2|].
  split; [reflexivity|]. split; [exact Hpr|].
  split; [rewrite Hpr, length_app; unfold calls; rewrite List.length_map; reflexivity|].
  split; [exact Her|]. split; [exact Hsu|]. split; reflexivity.
Qed.

(** ** Sample handles *)

Example handle0_constructed :
  constructor (JStr "in") (Some storage0) (Some client0) false 0
  = inr (handle0 (Some client0) false)
  /\ constructor (JStr "in") (Some storage0) None true 0
     = inr (handle0 None true)
  /\ constructor (JStr "in") (Some storage0) (Some client1) true 0
     = inr (handle0 (Some client1) true).
Proof. repeat split; reflexivity. Qed.

(** C2 at the modes "Buffer_Format" and "SEND", which are accepted and
    kept in lower case, and at "sent", which is rejected. *)
Lemma to_validates_mode_witness :
  (exists p st',
     DSL.to (JStr "out") JUndefined (JStr "Buffer_Format") JUndefined
       JUndefined None (start (handle0 (Some client0) false))
     = Ok (RPromise p) st'
     /\ promises st' !! p <> Some (Rejected produce_type_error)
     /\ produceType (this st') = JStr "buffer_format")
  /\ (exists p st',
        DSL.to (JStr "out") JUndefined (JStr "SEND") JUndefined
          JUndefined None (start (handle0 (Some client0) false))
        = Ok (RPromise p) st'
        /\ promises st' !! p <> Some (Rejected produce_type_error)
        /\ produceType (this st') = JStr "send")
  /\ (exists p st',
        DSL.to (JStr "out") JUndefined (JStr "sent") JUndefined
          JUndefined None (start (handle0 (Some client0) false))
        = Ok (RPromise p) st'
        /\ promises st' !! p = Some (Rejected produce_type_error)
        /\ this st' = this (start (handle0 (Some client0) false))).
Proof.
  split; [|split].
  - destruct (to_validates_mode (start (handle0 (Some client0) false))
                (JStr "out") JUndefined "Buffer_Format" JUndefined JUndefined
                None eq_refl) as (p & st' & E & Hacc & _).
    exists p, st'. split; [exact E|].
    apply (Hacc "buffer_format"); [simpl; auto | reflexivity].
  - destruct (to_validates_mode (start (handle0 (Some client0) false))
                (JStr "out") JUndefined "SEND" JUndefined JUndefined
                None eq_refl) as (p & st' & E & Hacc & _).
    exists p, st'. split; [exact E|].
    apply (Hacc "send"); [simpl; auto | reflexivity].
  - destruct (to_validates_mode (start (handle0 (Some client0) false))
                (JStr "out") JUndefined "sent" JUndefined JUndefined
                None eq_refl) as (p & st' & E & _ & Hrej & _).
    exists p, st'. split; [exact E|].
    apply Hrej. intros m [H | [H | [H | []]]]; subst; reflexivity.
Defined.

(** C3 at a clone constructed without a broker client. *)
Lemma clone_without_producer_setup_rejected_witness :
  isClone (this (start (handle0 None true))) = true
  /\ lacks_producer_setup (this (start (handle0 None true)))
  /\ exists p st' e,
       DSL.to (JStr "out") JUndefined JUndefined JUndefined JUndefined None
         (start (handle0 None true))
       = Ok (RPromise p) st'
       /\ promises st' !! p = Some (Rejected e)
       /\ subscriptions st' = subscriptions (start (handle0 None true))
       /\ setup_calls st' = setup_calls (start (handle0 None true))
       /\ produced st' = produced (start (handle0 None true))
       /\ env st' = env (start (handle0 None true))
       /\ (requested_mode JUndefined <> None -> is_configuration_error e)
       /\ (produceAsTopic (this (start (handle0 None true))) = false ->
           forall m, requested_mode JUndefined = Some m ->
                     valid_mode m = true -> e = clone_producer_error).
Proof.
  split; [reflexivity|]. split; [exact I|].
  apply (clone_without_producer_setup_rejected (start (handle0 None true)));
    [reflexivity | exact I].
Defined.

(** C10 at a clone constructed without a broker client, mode "BUFFER". *)
Lemma failed_clone_binding_leaves_handle_bound_witness :
  exists p st',
    DSL.to (JStr "out") (JNum 3) (JStr "BUFFER") JUndefined JUndefined None
      (start (handle0 None true))
    = Ok (RPromise p) st'
    /\ promises st' !! p = Some (Rejected clone_producer_error)
    /\ produceAsTopic (this st') = true
    /\ outputTopicName (this st') = JStr "out"
    /\ outputPartitionsCount (this st') = param_default (JNum 3) (JNum 1)
    /\ produceType (this st') = JStr "buffer"
    /\ produceVersion (this st') = param_default JUndefined (JNum 1)
    /\ produceCompressionType (this st') = param_default JUndefined (JNum 0)
    /\ this st' <> this (start (handle0 None true))
    /\ forall topic2 parts2 pt2 v2 c2 cb2,
         exists p2 st2,
           DSL.to topic2 parts2 pt2 v2 c2 cb2 st' = Ok (RPromise p2) st2
           /\ promises st2 !! p2 = Some (Rejected already_bound_error).
Proof.
  apply (failed_clone_binding_leaves_handle_bound (start (handle0 None true))
           (JStr "out") (JNum 3) (JStr "BUFFER") JUndefined JUndefined None
           "buffer");
    [reflexivity | exact I | reflexivity | reflexivity | reflexivity].
Defined.

(** C4 at an order event whose id is read from the payload. *)
Lemma format_round_trip_witness :
  exists st1 st2 envelope w2 r',
    DSL.mapToFormat (JStr "order") (Some read_id)
      (start (handle0 (Some client0) false)) = Ok RThis st1
    /\ DSL.mapFromFormat st1 = Ok RThis st2
    /\ toFormat_etl (param_default (JStr "order") (JStr "unknown-publish"))
         (Some read_id) (JObj [("id", JNum 7); ("total", JNum 12)]) host0
       = Ok envelope w2
    /\ get_prop envelope "payload"
       = inr (JObj [("id", JNum 7); ("total", JNum 12)])
    /\ fromFormat_etl envelope w2
       = Ok (JObj [("id", JNum 7); ("total", JNum 12)]) w2
    /\ push (stream (this st2)) 0
         (JObj [("id", JNum 7); ("total", JNum 12)]) host0 = Ok r' w2
    /\ out r' = Some (JObj [("id", JNum 7); ("total", JNum 12)]).
Proof.
  apply (format_round_trip (start (handle0 (Some client0) false))
           (JStr "order") (Some read_id) 0
           (JObj [("id", JNum 7); ("total", JNum 12)])
           (JObj [("id", JNum 7); ("total", JNum 12)]) host0 host0
           (Step (fromEvent 0)
                 (Some (JObj [("id", JNum 7); ("total", JNum 12)])) false));
    [reflexivity | reflexivity |].
  exists (JNum 7), host0. reflexivity.
Defined.


(** C5 at three events in buffer mode, the second produce call failing. *)
Lemma production_dispatch_policy_witness :
  exists p st1 st2 sub,
    DSL.to (JStr "out") JUndefined (JStr "Buffer") JUndefined (JNum 2)
      (Some 7%nat) (start (handle0 (Some client1) true)) = Ok (RPromise p) st1
    /\ write_all [JStr "a"; JStr "b"; JStr "c"] st1 = Ok tt st2
    /\ produced st1 = produced (start (handle0 (Some client1) true))
    /\ produced st2
       = produced (start (handle0 (Some client1) true))
         ++ [call_buffer (JStr "out") JNull (JStr "a") (JNum 2);
             call_buffer (JStr "out") JNull (JStr "b") (JNum 2);
             call_buffer (JStr "out") JNull (JStr "c") (JNum 2)]
    /\ length (produced st2)
       = (length (produced (start (handle0 (Some client1) true)))
          + length [JStr "a"; JStr "b"; JStr "c"])%nat
    /\ error_callbacks st2
       = error_callbacks st1 ++ [(7%nat, Error "broker unavailable")]
    /\ subscriptions st2 = [sub]
    /\ sub_observer sub
       = each_produce (produce_consumer JUndefined (JNum 2) (Some 7%nat))
    /\ sub_state sub = SubActive.
Proof.
  apply (production_dispatch_policy (start (handle0 (Some client1) true))
           (JStr "out") JUndefined (JStr "Buffer") JUndefined (JNum 2)
           (Some 7%nat) client1 (SetupReady (JBool true)) "buffer"
           [JStr "a"; JStr "b"; JStr "c"] [JStr "a"; JStr "b"; JStr "c"]
           (fromEvent 0) false host0);
    reflexivity.
Defined.

(** * Further properties *)

(** ** Construction *)

Lemma constructor_cases (topicName : jsval) (storage : option storage_obj)
    (kafka : option KafkaClient) (isClone : bool) (ee : nat) :
  (isClone = false /\ missing_client kafka
   /\ constructor topicName storage kafka isClone ee
      = inl (Error "kafka has to be an instance of KafkaClient."))
  \/ ((isClone = true \/ ~ missing_client kafka) /\ missing_storage storage
      /\ constructor topicName storage kafka isClone ee
         = inl (Error "storage hsa to be an instance of KStorage."))
  \/ ((isClone = true \/ ~ missing_client kafka) /\ ~ missing_storage storage
      /\ exists s, storage = Some s
         /\ constructor topicName storage kafka isClone ee
            = inr {| topicName := js_or topicName (JStr "");
                     kafka := kafka; storage := s; isClone := isClone;
                     _ee := ee; stream := fromEvent ee;
                     produceAsTopic := false; outputTopicName := JNull;
                     outputPartitionsCount := JNum 1;
                     produceType := JStr "send"; produceVersion := JNum 1;
                     produceCompressionType := JNum 0;
                     _kafkaStreams := JNull |}).
Proof.
  unfold constructor, missing_client, missing_storage.
  destruct isClone; simpl.
  - right. destruct storage as [s|]; simpl.
    + destruct (instanceof_KStorage s) eqn:Hs; simpl.
      * right. split; [auto|]. split; [congruence|]. eauto.
      * left. auto.
    + left. auto.
  - destruct kafka as [k|]; simpl.
    + destruct (instanceof_KafkaClient k) eqn:Hk; simpl.
      * right. destruct storage as [s|]; simpl.
        -- destruct (instanceof_KStorage s) eqn:Hs; simpl.
           ++ right. split; [right; congruence|]. split; [congruence|]. eauto.
           ++ left. split; [right; congruence|]. auto.
        -- left. split; [right; congruence|]. auto.
      * left. auto.
    + left. auto.
Qed.

(** X1.  The constructor throws the client error exactly when the handle
    is no clone and the client is missing or no [KafkaClient] instance; it
    throws the first store error exactly when that is not so and the store
    is missing or no [KStorage] instance; it returns a handle exactly in the
    remaining case.  It throws no other error: the second store check can
    never fire. *)
Theorem constructor_error_messages (topicName : jsval)
    (storage : option storage_obj) (kafka : option KafkaClient)
    (isClone : bool) (ee : nat) :
  (constructor topicName storage kafka isClone ee
   = inl (Error "kafka has to be an instance of KafkaClient.")
   <-> isClone = false /\ missing_client kafka)
  /\ (constructor topicName storage kafka isClone ee
      = inl (Error "storage hsa to be an instance of KStorage.")
      <-> (isClone = true \/ ~ missing_client kafka) /\ missing_storage storage)
  /\ ((exists h, constructor topicName storage kafka isClone ee = inr h)
      <-> (isClone = true \/ ~ missing_client kafka) /\ ~ missing_storage storage)
  /\ (forall e, constructor topicName storage kafka isClone ee = inl e ->
      e = Error "kafka has to be an instance of KafkaClient."
      \/ e = Error "storage hsa to be an instance of KStorage.")
  /\ constructor topicName storage kafka isClone ee
     <> inl (Error "storage must be an instance of KStorage.").
Proof.
  assert (Hexcl : forall P : Prop,
            isClone = false /\ missing_client kafka ->
            (isClone = true \/ ~ missing_client kafka) -> P).
  { intros P [-> Hk] [Hc | Hn]; [discriminate | contradiction]. }
  destruct (constructor_cases topicName storage kafka isClone ee)
    as [(Hc & Hk & E) | [(Hk & Hs & E) | (Hk & Hs & s & _ & E)]];
    rewrite E.
  - split; [|split; [|split; [|split]]].
    + split; auto.
    + split; [discriminate|]. intros [H _]. apply (Hexcl _ (conj Hc Hk) H).
    + split; [intros (h & Hh); discriminate|].
      intros [H _]. apply (Hexcl _ (conj Hc Hk) H).
    + intros e [= <-]. auto.
    + discriminate.
  - split; [|split; [|split; [|split]]].
    + split; [discriminate|]. intros H. apply (Hexcl _ H Hk).
    + split; auto.
    + split; [intros (h & Hh); discriminate|]. intros [_ H]. contradiction.
    + intros e [= <-]. auto.
    + discriminate.
  - split; [|split; [|split; [|split]]].
    + split; [discriminate|]. intros H. apply (Hexcl _ H Hk).
    + split; [discriminate|]. intros [_ H]. contradiction.
    + split; eauto.
    + intros e He. discriminate.
    + discriminate.
Qed.

(** X2.  A handle the constructor returns for a non-clone is unbound:
    its first [to(topic)] with all other arguments left out is fulfilled with
    [true] and binds the topic with one partition, mode send, version 1 and
    compression 0, keeps the defaulted topic name and the source on the
    handle's own emitter, and attaches or requests nothing. *)
Theorem first_binding_of_constructed_handle (name : jsval)
    (storage : option storage_obj) (kafka : option KafkaClient) (ee : nat)
    (h : StreamDSL) (st : state) (topic : jsval) :
  constructor name storage kafka false ee = inr h ->
  this st = h ->
  exists p st',
    DSL.to topic JUndefined JUndefined JUndefined JUndefined None st
    = Ok (RPromise p) st'
    /\ promises st' !! p = Some (Fulfilled (JBool true))
    /\ produceAsTopic (this st') = true
    /\ outputTopicName (this st') = topic
    /\ outputPartitionsCount (this st') = JNum 1
    /\ produceType (this st') = JStr "send"
    /\ produceVersion (this st') = JNum 1
    /\ produceCompressionType (this st') = JNum 0
    /\ topicName (this st') = js_or name (JStr "")
    /\ stream (this st') = fromEvent ee
    /\ subscriptions st' = subscriptions st
    /\ setup_calls st' = setup_calls st
    /\ produced st' = produced st.
Proof.
  intros Hc Hthis.
  destruct (constructor_cases name storage kafka false ee)
    as [(_ & _ & E) | [(_ & _ & E) | (_ & _ & s & _ & E)]];
    rewrite E in Hc; try discriminate. injection Hc as <-.
  rewrite (to_plain st topic JUndefined JUndefined JUndefined JUndefined None
             "send"); try (rewrite Hthis; reflexivity); try reflexivity.
  eexists _, _. split; [reflexivity|]. simpl.
  split; [apply lookup_last_added|]. rewrite Hthis. simpl.
  repeat split; reflexivity.
Qed.

(** X2 at the handle constructed for topic "in". *)
Lemma first_binding_of_constructed_handle_witness :
  exists p st',
    DSL.to (JStr "out") JUndefined JUndefined JUndefined JUndefined None
      (start (handle0 (Some client0) false))
    = Ok (RPromise p) st'
    /\ promises st' !! p = Some (Fulfilled (JBool true))
    /\ produceAsTopic (this st') = true
    /\ outputTopicName (this st') = JStr "out"
    /\ outputPartitionsCount (this st') = JNum 1
    /\ produceType (this st') = JStr "send"
    /\ produceVersion (this st') = JNum 1
    /\ produceCompressionType (this st') = JNum 0
    /\ topicName (this st') = js_or (JStr "in") (JStr "")
    /\ stream (this st') = fromEvent 0
    /\ subscriptions st' = subscriptions (start (handle0 (Some client0) false))
    /\ setup_calls st' = setup_calls (start (handle0 (Some client0) false))
    /\ produced st' = produced (start (handle0 (Some client0) false)).
Proof.
  apply (first_binding_of_constructed_handle (JStr "in") (Some storage0)
           (Some client0) 0 (handle0 (Some client0) false)
           (start (handle0 (Some client0) false)) (JStr "out"));
    reflexivity.
Defined.

(** ** More on the production binding *)

(** X3.  On an unbound handle that is no clone, [to] with a valid mode is
    fulfilled with [true] at once and only assigns the binding fields: no
    consumer is subscribed, no producer set-up is requested, nothing is
    produced, no error callback is called. *)
Theorem to_on_original_attaches_nothing (st : state)
    (topic parts pt v c : jsval) (cb : option nat) (m : string) :
  isClone (this st) = false ->
  produceAsTopic (this st) = false ->
  requested_mode pt = Some m ->
  valid_mode m = true ->
  exists p st',
    DSL.to topic parts pt v c cb st = Ok (RPromise p) st'
    /\ promises st' !! p = Some (Fulfilled (JBool true))
    /\ this st' = bound_handle topic parts m v c (this st)
    /\ subscriptions st' = subscriptions st
    /\ setup_calls st' = setup_calls st
    /\ produced st' = produced st
    /\ error_callbacks st' = error_callbacks st
    /\ env st' = env st.
Proof.
  intros Hc Hb Hm Hv. erewrite to_plain by eassumption.
  eexists _, _. split; [reflexivity|]. simpl.
  split; [apply lookup_last_added|]. repeat split; reflexivity.
Qed.

(** X3 at mode "BUFFER" with four partitions. *)
Lemma to_on_original_attaches_nothing_witness :
  exists p st',
    DSL.to (JStr "out") (JNum 4) (JStr "BUFFER") (JNum 2) (JNum 1) (Some 3%nat)
      (start (handle0 (Some client0) false)) = Ok (RPromise p) st'
    /\ promises st' !! p = Some (Fulfilled (JBool true))
    /\ this st' = bound_handle (JStr "out") (JNum 4) "buffer" (JNum 2) (JNum 1)
                    (this (start (handle0 (Some client0) false)))
    /\ subscriptions st' = subscriptions (start (handle0 (Some client0) false))
    /\ setup_calls st' = setup_calls (start (handle0 (Some client0) false))
    /\ produced st' = produced (start (handle0 (Some client0) false))
    /\ error_callbacks st'
       = error_callbacks (start (handle0 (Some client0) false))
    /\ env st' = env (start (handle0 (Some client0) false)).
Proof.
  apply (to_on_original_attaches_nothing (start (handle0 (Some client0) false))
           (JStr "out") (JNum 4) (JStr "BUFFER") (JNum 2) (JNum 1)
           (Some 3%nat) "buffer"); reflexivity.
Defined.

(** X4.  On an unbound handle, a produce mode that is given but falsy
    ([null], the empty string, [false], [0]) is rejected with the produce-mode
    error and leaves the handle unchanged, whereas leaving the mode out
    selects send. *)
Theorem to_falsy_mode_rejected (st : state)
    (topic parts pt v c : jsval) (cb : option nat) :
  produceAsTopic (this st) = false ->
  pt <> JUndefined ->
  truthy pt = false ->
  exists p st',
    DSL.to topic parts pt v c cb st = Ok (RPromise p) st'
    /\ promises st' !! p = Some (Rejected produce_type_error)
    /\ this st' = this st
    /\ exists q st'',
         DSL.to topic parts JUndefined v c cb st = Ok (RPromise q) st''
         /\ produceType (this st'') = JStr "send"
         /\ promises st'' !! q <> Some (Rejected produce_type_error).
Proof.
  intros Hb Hu Hf.
  assert (Hm : requested_mode pt = Some "").
  { unfold requested_mode, js_or.
    destruct pt; try contradiction; simpl in *; rewrite ?Hf; try reflexivity;
      discriminate. }
  erewrite to_invalid by (try eassumption; reflexivity).
  eexists _, _. split; [reflexivity|]. simpl.
  split; [apply lookup_last_added|]. split; [reflexivity|].
  assert (Hm' : requested_mode JUndefined = Some "send") by reflexivity.
  assert (Hv' : valid_mode "send" = true) by reflexivity.
  destruct (isClone (this st)) eqn:Hc.
  - destruct (kafka (this st)) as [k|] eqn:Hk;
      [destruct (setupProducer k) as [b|] eqn:Hs|].
    + erewrite to_clone_with_setup by eassumption.
      eexists _, _. split; [reflexivity|]. split; [reflexivity|].
      unfold state_after_setup; simpl.
      rewrite list_lookup_middle by reflexivity. destruct b; discriminate.
    + erewrite to_clone_without_setup
        by eauto using lacks_producer_setup_Some.
      eexists _, _. split; [reflexivity|]. split; [reflexivity|]. simpl.
      rewrite lookup_last_added. discriminate.
    + erewrite to_clone_without_setup
        by eauto using lacks_producer_setup_None.
      eexists _, _. split; [reflexivity|]. split; [reflexivity|]. simpl.
      rewrite lookup_last_added. discriminate.
  - erewrite to_plain by eassumption.
    eexists _, _. split; [reflexivity|]. split; [reflexivity|]. simpl.
    rewrite lookup_last_added. discriminate.
Qed.

(** X4 at the mode [null]. *)
Lemma to_falsy_mode_rejected_witness :
  exists p st',
    DSL.to (JStr "out") JUndefined JNull JUndefined JUndefined None
      (start (handle0 (Some client0) false)) = Ok (RPromise p) st'
    /\ promises st' !! p = Some (Rejected produce_type_error)
    /\ this st' = this (start (handle0 (Some client0) false))
    /\ exists q st'',
         DSL.to (JStr "out") JUndefined JUndefined JUndefined JUndefined None
           (start (handle0 (Some client0) false)) = Ok (RPromise q) st''
         /\ produceType (this st'') = JStr "send"
         /\ promises st'' !! q <> Some (Rejected produce_type_error).
Proof.
  apply (to_falsy_mode_rejected (start (handle0 (Some client0) false))
           (JStr "out") JUndefined JNull JUndefined JUndefined None);
    [reflexivity | discriminate | reflexivity].
Defined.

(** X5.  On an unbound handle, a truthy produce mode that is no string
    rejects the promise with a [TypeError] of [toLowerCase], not with the
    produce-mode error; the handle is unchanged and nothing is attached. *)
Theorem to_non_string_mode_type_error (st : state)
    (topic parts pt v c : jsval) (cb : option nat) :
  produceAsTopic (this st) = false ->
  truthy pt = true ->
  typeof pt <> "string" ->
  exists p st',
    DSL.to topic parts pt v c cb st = Ok (RPromise p) st'
    /\ promises st' !! p
       = Some (Rejected (TypeError "produceType.toLowerCase is not a function"))
    /\ this st' = this st
    /\ subscriptions st' = subscriptions st
    /\ setup_calls st' = setup_calls st
    /\ produced st' = produced st.
Proof.
  intros Hb Ht Hs.
  assert (Hm : requested_mode pt = None).
  { unfold requested_mode, js_or.
    destruct pt; simpl in *; try discriminate; try rewrite Ht; try reflexivity.
    contradiction. }
  erewrite to_not_string by eassumption.
  eexists _, _. split; [reflexivity|]. simpl.
  split; [apply lookup_last_added|]. repeat split; reflexivity.
Qed.

(** X5 at the mode 1. *)
Lemma to_non_string_mode_type_error_witness :
  exists p st',
    DSL.to (JStr "out") JUndefined (JNum 1) JUndefined JUndefined None
      (start (handle0 (Some client0) false)) = Ok (RPromise p) st'
    /\ promises st' !! p
       = Some (Rejected (TypeError "produceType.toLowerCase is not a function"))
    /\ this st' = this (start (handle0 (Some client0) false))
    /\ subscriptions st' = subscriptions (start (handle0 (Some client0) false))
    /\ setup_calls st' = setup_calls (start (handle0 (Some client0) false))
    /\ produced st' = produced (start (handle0 (Some client0) false)).
Proof.
  apply (to_non_string_mode_type_error (start (handle0 (Some client0) false))
           (JStr "out") JUndefined (JNum 1) JUndefined JUndefined None);
    [reflexivity | reflexivity | discriminate].
Defined.

(** X6.  Whatever its arguments and outcome, a call of [to] returns a
    fresh promise and never changes the source, the topic name, the clone
    flag, the client, the store or the emitter of the handle, nor the world,
    nor what has been produced; it adds at most one subscription and at most
    one producer set-up. *)
Theorem to_keeps_source_and_collaborators (st : state)
    (topic parts pt v c : jsval) (cb : option nat) :
  exists st',
    DSL.to topic parts pt v c cb st = Ok (RPromise (length (promises st))) st'
    /\ stream (this st') = stream (this st)
    /\ topicName (this st') = topicName (this st)
    /\ isClone (this st') = isClone (this st)
    /\ kafka (this st') = kafka (this st)
    /\ storage (this st') = storage (this st)
    /\ _ee (this st') = _ee (this st)
    /\ _kafkaStreams (this st') = _kafkaStreams (this st)
    /\ env st' = env st
    /\ produced st' = produced st
    /\ (exists added, promises st' = promises st ++ added)
    /\ (exists added, subscriptions st' = subscriptions st ++ added
                      /\ (length added <= 1)%nat)
    /\ (exists added, setup_calls st' = setup_calls st ++ added
                      /\ (length added <= 1)%nat).
Proof.
  to_cases st pt; eexists; (split; [reflexivity|]); simpl;
    repeat split; try reflexivity;
    try (exists []; rewrite app_nil_r; split; [reflexivity | simpl; lia]);
    try (eexists; split; [reflexivity | simpl; lia]);
    try (eexists; reflexivity); assumption.
Qed.

(** X7.  On an unbound clone whose client reports a failed producer
    set-up, [to] with a valid mode returns a promise that stays pending; the
    error goes to the error callback when one was given; the handle is bound
    and the terminal consumer is subscribed to the source all the same. *)
Theorem to_with_failed_setup_stays_pending (st : state)
    (topic parts pt v c : jsval) (cb : option nat) (k : KafkaClient)
    (e : exn) (m : string) :
  isClone (this st) = true ->
  kafka (this st) = Some k ->
  setupProducer k = Some (SetupFails e) ->
  produceAsTopic (this st) = false ->
  requested_mode pt = Some m ->
  valid_mode m = true ->
  exists p st' sub,
    DSL.to topic parts pt v c cb st = Ok (RPromise p) st'
    /\ promises st' !! p = Some Pending
    /\ produceAsTopic (this st') = true
    /\ setup_calls st' = setup_calls st ++ [(topic, param_default parts (JNum 1))]
    /\ error_callbacks st' = error_callbacks st ++ reported cb [e]
    /\ subscriptions st' = subscriptions st ++ [sub]
    /\ sub_state sub = SubActive
    /\ sub_stream sub = stream (this st)
    /\ sub_observer sub = each_produce (produce_consumer v c cb).
Proof.
  intros Hc Hk Hs Hb Hm Hv. erewrite to_clone_with_setup by eassumption.
  eexists _, _, _. split; [reflexivity|]. unfold state_after_setup; simpl.
  split; [apply list_lookup_middle; reflexivity|].
  repeat split; try reflexivity.
  destruct cb; simpl; rewrite ?app_nil_r; reflexivity.
Qed.

(** X8.  On an unbound clone whose client reports the producer ready,
    the promise of [to] is fulfilled with the value the client hands to its
    ready callback, no error callback is called, and the promise of the
    attached consumer is still pending. *)
Theorem to_resolves_with_the_client_value (st : state)
    (topic parts pt v c : jsval) (cb : option nat) (k : KafkaClient)
    (x : jsval) (m : string) :
  isClone (this st) = true ->
  kafka (this st) = Some k ->
  setupProducer k = Some (SetupReady x) ->
  produceAsTopic (this st) = false ->
  requested_mode pt = Some m ->
  valid_mode m = true ->
  exists p st' sub,
    DSL.to topic parts pt v c cb st = Ok (RPromise p) st'
    /\ promises st' !! p = Some (Fulfilled x)
    /\ setup_calls st' = setup_calls st ++ [(topic, param_default parts (JNum 1))]
    /\ error_callbacks st' = error_callbacks st
    /\ subscriptions st' = subscriptions st ++ [sub]
    /\ sub_state sub = SubActive
    /\ promises st' !! sub_promise sub = Some Pending.
Proof.
  intros Hc Hk Hs Hb Hm Hv. erewrite to_clone_with_setup by eassumption.
  eexists _, _, _. split; [reflexivity|]. unfold state_after_setup; simpl.
  split; [apply list_lookup_middle; reflexivity|].
  repeat split; try reflexivity.
  change (promises st ++ [Fulfilled x; Pending])
    with (promises st ++ [Fulfilled x] ++ [Pending]).
  rewrite app_assoc. apply list_lookup_middle.
  rewrite length_app. simpl. lia.
Qed.

(** X7 at a clone whose client reports "no broker". *)
Lemma to_with_failed_setup_stays_pending_witness :
  exists p st' sub,
    DSL.to (JStr "out") JUndefined JUndefined JUndefined JUndefined (Some 5%nat)
      (start (handle0 (Some client2) true)) = Ok (RPromise p) st'
    /\ promises st' !! p = Some Pending
    /\ produceAsTopic (this st') = true
    /\ setup_calls st'
       = setup_calls (start (handle0 (Some client2) true))
         ++ [(JStr "out", param_default JUndefined (JNum 1))]
    /\ error_callbacks st'
       = error_callbacks (start (handle0 (Some client2) true))
         ++ reported (Some 5%nat) [Error "no broker"]
    /\ subscriptions st'
       = subscriptions (start (handle0 (Some client2) true)) ++ [sub]
    /\ sub_state sub = SubActive
    /\ sub_stream sub = stream (this (start (handle0 (Some client2) true)))
    /\ sub_observer sub
       = each_produce (produce_consumer JUndefined JUndefined (Some 5%nat)).
Proof.
  apply (to_with_failed_setup_stays_pending
           (start (handle0 (Some client2) true)) (JStr "out") JUndefined
           JUndefined JUndefined JUndefined (Some 5%nat) client2
           (Error "no broker") "send"); reflexivity.
Defined.

(** X8 at a clone whose client reports ready with [undefined]. *)
Lemma to_resolves_with_the_client_value_witness :
  exists p st' sub,
    DSL.to (JStr "out") JUndefined JUndefined JUndefined JUndefined None
      (start (handle0 (Some client0) true)) = Ok (RPromise p) st'
    /\ promises st' !! p = Some (Fulfilled JUndefined)
    /\ setup_calls st'
       = setup_calls (start (handle0 (Some client0) true))
         ++ [(JStr "out", param_default JUndefined (JNum 1))]
    /\ error_callbacks st'
       = error_callbacks (start (handle0 (Some client0) true))
    /\ subscriptions st'
       = subscriptions (start (handle0 (Some client0) true)) ++ [sub]
    /\ sub_state sub = SubActive
    /\ promises st' !! sub_promise sub = Some Pending.
Proof.
  apply (to_resolves_with_the_client_value
           (start (handle0 (Some client0) true)) (JStr "out") JUndefined
           JUndefined JUndefined JUndefined None client0 JUndefined "send");
    reflexivity.
Defined.

(** ** Writing to the stream *)

Lemma write_all_without_consumer (vs : list jsval) (st : state) :
  subscriptions st = [] -> write_all vs st = Ok tt st.
Proof.
  intros Hsubs. induction vs as [|v rest IH]; [reflexivity|].
  cbn [write_all]. unfold bind at 1.
  assert (DSL.writeToStream v st = Ok tt st) as ->; [|exact IH].
  unfold DSL.writeToStream, bind, gets. rewrite Hsubs. simpl.
  destruct st; simpl in *; subst. reflexivity.
Qed.

Lemma invoke_rewraps (c : operator_call) (st : state) :
  exists f, invoke c st = Ok RThis (with_this (set_stream f) st).
Proof.
  destruct c;
    try match goal with e : option callback |- _ => destruct e end;
    eexists; reflexivity.
Qed.

(** X9.  On a clone without consumer, events written before [to] reach
    nobody and are not produced later: after the binding, only the events
    written from then on lead to produce calls. *)
Theorem writes_before_binding_are_lost (st : state)
    (topic parts pt v c : jsval) (cb : option nat)
    (k : KafkaClient) (b : setup_behaviour) (m : string)
    (early late outs : list jsval) (s' : Stream) (e : bool) (w' : world) :
  isClone (this st) = true ->
  kafka (this st) = Some k ->
  setupProducer k = Some b ->
  produceAsTopic (this st) = false ->
  requested_mode pt = Some m ->
  valid_mode m = true ->
  subscriptions st = [] ->
  feed (stream (this st)) (_ee (this st)) late (env st) = Ok (s', outs, e) w' ->
  exists st0 p st1 st2,
    write_all early st = Ok tt st0
    /\ DSL.to topic parts pt v c cb st0 = Ok (RPromise p) st1
    /\ write_all late st1 = Ok tt st2
    /\ produced st0 = produced st
    /\ produced st2
       = produced st
         ++ List.map (dispatch_call m topic (param_default v (JNum 1))
                        (param_default c (JNum 0))) outs.
Proof.
  intros Hclone Hk Hs Hb Hm Hv Hsubs Hfeed.
  pose proof (write_all_without_consumer early st Hsubs) as E0.
  pose proof (to_clone_with_setup st topic parts pt v c cb m k b Hb Hm Hv
                Hclone Hk Hs) as E1.
  set (st1 := state_after_setup st topic parts m v c cb b) in *.
  assert (Hsu1 : subscriptions st1
                 = [produce_sub (stream (this st)) (produce_consumer v c cb)
                      SubActive (S (length (promises st)))]).
  { unfold st1, state_after_setup. simpl. rewrite Hsubs. reflexivity. }
  destruct (write_all_dispatches (produce_consumer v c cb) k m late
              (stream (this st)) st1 (S (length (promises st))) s' outs e w'
              Hsu1 Hk eq_refl Hv Hfeed)
    as (st2 & E2 & _ & _ & _ & Hpr & _).
  simpl in Hpr. exists st, (length (promises st)), st1, st2.
  repeat split; assumption.
Qed.

(** X10.  An operator called on a clone after [to] does not change what
    is produced: the terminal consumer keeps observing the source as it was
    when [to] subscribed it. *)
Theorem operators_after_binding_do_not_reach_the_consumer (st : state)
    (topic parts pt v c : jsval) (cb : option nat)
    (k : KafkaClient) (b : setup_behaviour) (m : string)
    (op : operator_call)
    (vs outs : list jsval) (s' : Stream) (e : bool) (w' : world) :
  isClone (this st) = true ->
  kafka (this st) = Some k ->
  setupProducer k = Some b ->
  produceAsTopic (this st) = false ->
  requested_mode pt = Some m ->
  valid_mode m = true ->
  subscriptions st = [] ->
  feed (stream (this st)) (_ee (this st)) vs (env st) = Ok (s', outs, e) w' ->
  exists p st1 st2 st3,
    DSL.to topic parts pt v c cb st = Ok (RPromise p) st1
    /\ invoke op st1 = Ok RThis st2
    /\ write_all vs st2 = Ok tt st3
    /\ produced st3
       = produced st
         ++ List.map (dispatch_call m topic (param_default v (JNum 1))
                        (param_default c (JNum 0))) outs.
Proof.
  intros Hclone Hk Hs Hb Hm Hv Hsubs Hfeed.
  pose proof (to_clone_with_setup st topic parts pt v c cb m k b Hb Hm Hv
                Hclone Hk Hs) as E1.
  set (st1 := state_after_setup st topic parts m v c cb b) in *.
  destruct (invoke_rewraps op st1) as (f & Hop).
  set (st2 := with_this (set_stream f) st1) in *.
  assert (Hsu : subscriptions st2
                = [produce_sub (stream (this st)) (produce_consumer v c cb)
                     SubActive (S (length (promises st)))]).
  { unfold st2, st1, state_after_setup. simpl. rewrite Hsubs. reflexivity. }
  destruct (write_all_dispatches (produce_consumer v c cb) k m vs
              (stream (this st)) st2 (S (length (promises st))) s' outs e w'
              Hsu Hk eq_refl Hv Hfeed)
    as (st3 & E3 & _ & _ & _ & Hpr & _).
  simpl in Hpr. exists (length (promises st)), st1, st2, st3.
  repeat split; assumption.
Qed.

Lemma write_all_after_failure (vs : list jsval) (st : state) (s : Stream)
    (c : consumer) (q : nat) (e : exn) :
  subscriptions st = [produce_sub s c (SubFailed e) q] ->
  write_all vs st = Ok tt st.
Proof.
  intros Hsubs. induction vs as [|v rest IH]; [reflexivity|].
  cbn [write_all]. unfold bind at 1.
  assert (DSL.writeToStream v st = Ok tt st) as ->; [|exact IH].
  unfold DSL.writeToStream, bind, gets. rewrite Hsubs. simpl.
  destruct st; simpl in *; subst. reflexivity.
Qed.

Lemma settle_second (ps : list promise_state) (x r : promise_state) :
  settle (S (length ps)) r (ps ++ [x; Pending]) = ps ++ [x; r].
Proof.
  change (ps ++ [x; Pending]) with (ps ++ [x] ++ [Pending]).
  change (ps ++ [x; r]) with (ps ++ [x] ++ [r]).
  rewrite !app_assoc.
  replace (S (length ps)) with (length (ps ++ [x]))
    by (rewrite length_app; simpl; lia).
  apply settle_fresh.
Qed.

(** X11.  When the source of a bound clone throws on an event, nothing is
    produced for it, the error is not handed to the producer error callback,
    the consumer's subscription fails with that error, and no later write
    has any effect. *)
Theorem transform_error_stops_production (st : state)
    (topic parts pt v c : jsval) (cb : option nat)
    (k : KafkaClient) (b : setup_behaviour) (m : string)
    (x : jsval) (e : exn) (w1 : world) :
  isClone (this st) = true ->
  kafka (this st) = Some k ->
  setupProducer k = Some b ->
  produceAsTopic (this st) = false ->
  requested_mode pt = Some m ->
  valid_mode m = true ->
  subscriptions st = [] ->
  push (stream (this st)) (_ee (this st)) x (env st) = Throw e w1 ->
  exists p st1 st2 sub,
    DSL.to topic parts pt v c cb st = Ok (RPromise p) st1
    /\ DSL.writeToStream x st1 = Ok tt st2
    /\ produced st2 = produced st
    /\ error_callbacks st2 = error_callbacks st1
    /\ subscriptions st2 = [sub]
    /\ sub_state sub = SubFailed e
    /\ promises st2 !! sub_promise sub = Some (Rejected e)
    /\ forall later, write_all later st2 = Ok tt st2.
Proof.
  intros Hclone Hk Hs Hb Hm Hv Hsubs Hpush.
  pose proof (to_clone_with_setup st topic parts pt v c cb m k b Hb Hm Hv
                Hclone Hk Hs) as E1.
  set (st1 := state_after_setup st topic parts m v c cb b) in *.
  set (q := S (length (promises st))).
  set (co := produce_consumer v c cb).
  set (st2 := with_subscriptions
                (fun _ => [produce_sub (stream (this st)) co (SubFailed e) q])
                (with_promises (settle q (Rejected e))
                   (with_env (fun _ => w1) st1))).
  assert (E2 : DSL.writeToStream x st1 = Ok tt st2).
  { unfold DSL.writeToStream, bind, gets.
    unfold st1 at 2, state_after_setup. cbn [subscriptions]. rewrite Hsubs.
    cbn -[push]. unfold bind, in_world. cbn -[push]. rewrite Hpush.
    reflexivity. }
  exists (length (promises st)), st1, st2,
    (produce_sub (stream (this st)) co (SubFailed e) q).
  split; [exact E1|]. split; [exact E2|].
  split; [reflexivity|]. split; [reflexivity|]. split; [reflexivity|].
  split; [reflexivity|]. split.
  - unfold st2, st1, state_after_setup, q. simpl.
    rewrite settle_second. 
    change (promises st ++ [match b with SetupReady x0 => Fulfilled x0 | _ => Pending end; Rejected e])
      with (promises st ++ [match b with SetupReady x0 => Fulfilled x0 | _ => Pending end] ++ [Rejected e]).
    rewrite app_assoc. apply list_lookup_middle. rewrite length_app. simpl. lia.
  - intros later.
    apply (write_all_after_failure later st2 (stream (this st)) co q e).
    reflexivity.
Qed.

(** ** The mapping helpers *)

Lemma push_map (f : callback) (s : Stream) (ee : nat) (x : jsval)
    (w w1 w2 : world) (r : step) (v y : jsval) :
  push s ee x w = Ok r w1 ->
  out r = Some v ->
  f v w1 = Ok y w2 ->
  push (s_map f s) ee x w = Ok (Step (s_map f (next r)) (Some y) (ended r)) w2.
Proof.
  intros Hp Ho Hf. cbn [push]. unfold bind. rewrite Hp, Ho.
  unfold bind. rewrite Hf. reflexivity.
Qed.

Lemma push_map_throw (f : callback) (s : Stream) (ee : nat) (x : jsval)
    (w w1 w2 : world) (r : step) (v : jsval) (e : exn) :
  push s ee x w = Ok r w1 ->
  out r = Some v ->
  f v w1 = Throw e w2 ->
  push (s_map f s) ee x w = Throw e w2.
Proof.
  intros Hp Ho Hf. cbn [push]. unfold bind. rewrite Hp, Ho.
  unfold bind. rewrite Hf. reflexivity.
Qed.

Lemma fromFormat_cases (m : jsval) (w : world) :
  match m with
  | JNull =>
      fromFormat_etl m w
      = Throw (TypeError "Cannot read property 'payload' of null") w
  | JObj fs => fromFormat_etl m w = Ok (default JUndefined (assoc "payload" fs)) w
  | JArr _ => fromFormat_etl m w = Ok JUndefined w
  | JStr s =>
      match JSON_parse w s with
      | inr (JObj fs) =>
          fromFormat_etl m w = Ok (default JUndefined (assoc "payload" fs)) w
      | inr (JArr _) => fromFormat_etl m w = Ok JUndefined w
      | _ => fromFormat_etl m w = Ok m w
      end
  | _ => fromFormat_etl m w = Ok m w
  end.
Proof.
  destruct m; try reflexivity.
  unfold fromFormat_etl, try_, bind, gets, of_sum. simpl.
  destruct (JSON_parse w s) as [e|o]; [reflexivity|].
  destruct o; reflexivity.
Qed.

(** X12.  After [mapFromFormat()], an event [null] makes the stream throw
    a [TypeError]; every other event comes out as some value, with the world
    unchanged. *)
Theorem mapFromFormat_fails_only_on_null (st : state) (ee : nat)
    (x m : jsval) (w w1 : world) (r : step) :
  push (stream (this st)) ee x w = Ok r w1 ->
  out r = Some m ->
  exists st',
    DSL.mapFromFormat st = Ok RThis st'
    /\ (m = JNull ->
        push (stream (this st')) ee x w
        = Throw (TypeError "Cannot read property 'payload' of null") w1)
    /\ (m <> JNull ->
        exists r', push (stream (this st')) ee x w = Ok r' w1
                   /\ is_Some (out r')).
Proof.
  intros Hp Ho. eexists. split; [reflexivity|].
  cbn -[fromFormat_etl push]. pose proof (fromFormat_cases m w1) as Hc.
  split.
  - intros ->. eapply push_map_throw; eauto.
  - intros Hn.
    assert (exists v, fromFormat_etl m w1 = Ok v w1) as (v & Hv).
    { destruct m; eauto; try contradiction.
      destruct (JSON_parse w1 s) as [e|o]; eauto. destruct o; eauto. }
    eexists. split; [eapply push_map; eauto|]. simpl. eauto.
Qed.

(** X13.  The transform of [mapFromFormat] on a string: when it does not
    parse as JSON, or parses to something that is no object, or to [null],
    the string itself is returned; when it parses to an object, its payload
    is. *)
Theorem mapFromFormat_on_strings (s : string) (w : world) :
  (forall e, JSON_parse w s = inl e -> fromFormat_etl (JStr s) w = Ok (JStr s) w)
  /\ (forall o, JSON_parse w s = inr o -> typeof o <> "object" ->
      fromFormat_etl (JStr s) w = Ok (JStr s) w)
  /\ (JSON_parse w s = inr JNull -> fromFormat_etl (JStr s) w = Ok (JStr s) w)
  /\ (forall fs, JSON_parse w s = inr (JObj fs) ->
      fromFormat_etl (JStr s) w = Ok (default JUndefined (assoc "payload" fs)) w).
Proof.
  pose proof (fromFormat_cases (JStr s) w) as Hc. cbn beta iota in Hc.
  repeat split.
  - intros e He. rewrite He in Hc. exact Hc.
  - intros o Ho Ht. rewrite Ho in Hc. destruct o; try exact Hc;
      simpl in Ht; contradiction.
  - intros Ho. rewrite Ho in Hc. exact Hc.
  - intros fs Ho. rewrite Ho in Hc. exact Hc.
Qed.

(** X14.  The transform of [mapWrapKafkaPayload]: [null] throws a
    [TypeError]; an object with a defined [value] yields that value; an
    object without one, and every value that is no object, is returned as it
    is. *)
Theorem wrapKafkaPayload_cases (m : jsval) (w : world) :
  (m = JNull ->
   wrapKafkaPayload_etl m w
   = Throw (TypeError "Cannot read property 'value' of null") w)
  /\ (forall fs v, m = JObj fs -> assoc "value" fs = Some v -> v <> JUndefined ->
      wrapKafkaPayload_etl m w = Ok v w)
  /\ (forall fs, m = JObj fs ->
      assoc "value" fs = None \/ assoc "value" fs = Some JUndefined ->
      wrapKafkaPayload_etl m w = Ok m w)
  /\ ((forall fs, m <> JObj fs) -> m <> JNull ->
      wrapKafkaPayload_etl m w = Ok m w).
Proof.
  repeat split.
  - intros ->. reflexivity.
  - intros fs v -> Hv Hn. unfold wrapKafkaPayload_etl, bind, of_sum. simpl.
    rewrite Hv. simpl. destruct v; try reflexivity. contradiction.
  - intros fs -> [Hv|Hv]; unfold wrapKafkaPayload_etl, bind, of_sum; simpl;
      rewrite Hv; reflexivity.
  - intros Ho Hn. destruct m; try reflexivity; try contradiction.
    exfalso. apply (Ho fields). reflexivity.
Qed.

(** X15.  [timestamp(etl)] followed by [mapWrapKafkaPayload()] gives back
    every event that is not [undefined]; for [undefined] the time-stamped
    wrapper itself comes out. *)
Theorem timestamp_then_wrap_payload (st : state) (etl : callback) (ee : nat)
    (x v t : jsval) (w w1 w2 : world) (r : step) :
  push (stream (this st)) ee x w = Ok r w1 ->
  out r = Some v ->
  etl v w1 = Ok t w2 ->
  exists st1 st2 r',
    DSL.timestamp (Some etl) st = Ok RThis st1
    /\ mapWrapKafkaPayload st1 = Ok RThis st2
    /\ push (stream (this st2)) ee x w = Ok r' w2
    /\ (v <> JUndefined -> out r' = Some v)
    /\ (v = JUndefined ->
        out r' = Some (JObj [("time", t); ("value", JUndefined)])).
Proof.
  intros Hp Ho He. eexists _, _, _. split; [reflexivity|].
  split; [reflexivity|]. cbn -[wrapKafkaPayload_etl push].
  split.
  - eapply push_map.
    + eapply push_map; [exact Hp | exact Ho |].
      unfold bind. rewrite He. reflexivity.
    + reflexivity.
    + instantiate (1 := if jsval_eqb v JUndefined
                        then JObj [("time", t); ("value", JUndefined)] else v).
      unfold wrapKafkaPayload_etl, bind, of_sum. simpl.
      destruct v; reflexivity.
  - simpl. split.
    + intros Hn. destruct v; try reflexivity. contradiction.
    + intros ->. reflexivity.
Qed.

Lemma string_app_nil_r (s : string) : s +:+ EmptyString = s.
Proof.
  induction s as [|a s IH]; [reflexivity|].
  change (String a s +:+ EmptyString) with (String a (s +:+ EmptyString)).
  rewrite IH. reflexivity.
Qed.

Lemma string_app_snoc (cur : string) (a : ascii) (k : string) :
  (cur +:+ String a EmptyString) +:+ k = cur +:+ String a k.
Proof.
  induction cur as [|b cur IH]; [reflexivity|].
  change ((String b cur +:+ String a EmptyString) +:+ k)
    with (String b ((cur +:+ String a EmptyString) +:+ k)).
  rewrite IH. reflexivity.
Qed.

Lemma split_go_piece (c : ascii) (k : string) :
  forall (t cur : string),
    (forall i, String.get i k <> Some c) ->
    split_go (String c EmptyString) (k +:+ t) 0 cur
    = split_go (String c EmptyString) t 0 (cur +:+ k).
Proof.
  induction k as [|a k IH]; intros t cur Hk.
  - rewrite string_app_nil_r. reflexivity.
  - change (String a k +:+ t) with (String a (k +:+ t)).
    cbn [split_go starts_with].
    assert (Hac : Ascii.eqb c a = false).
    { apply Ascii.eqb_neq. intros <-. apply (Hk 0%nat). reflexivity. }
    rewrite Hac. cbn [andb].
    rewrite IH by (intros i; apply (Hk (S i))).
    rewrite string_app_snoc. reflexivity.
Qed.

Lemma split_go_delimiter (c : ascii) (t cur : string) :
  split_go (String c EmptyString) (String c t) 0 cur
  = cur :: split_go (String c EmptyString) t 0 EmptyString.
Proof.
  cbn [split_go starts_with]. rewrite Ascii.eqb_refl. reflexivity.
Qed.

(** X16.  After [mapStringToKV(c)] with a one-character delimiter, a
    string event comes out as the object whose key is the piece before the
    first delimiter and whose value is the piece between the first and the
    second; further pieces are dropped. *)
Theorem mapStringToKV_splits_key_and_value (st : state) (c : ascii)
    (k v tail : string) (ee : nat) (x : jsval) (w w1 : world) (r : step) :
  push (stream (this st)) ee x w = Ok r w1 ->
  out r = Some (JStr (k +:+ String c (v +:+ tail))) ->
  (forall i, String.get i k <> Some c) ->
  (forall i, String.get i v <> Some c) ->
  tail = EmptyString \/ (exists t, tail = String c t) ->
  exists st' r',
    mapStringToKV (Some (String c EmptyString)) None None st = Ok RThis st'
    /\ push (stream (this st')) ee x w = Ok r' w1
    /\ out r' = Some (JObj [("key", JStr k); ("value", JStr v)]).
Proof.
  intros Hp Ho Hk Hv Ht.
  assert (Hsplit : exists more,
            String_split (String c EmptyString) (k +:+ String c (v +:+ tail))
            = k :: v :: more).
  { unfold String_split. rewrite split_go_piece by exact Hk.
    rewrite split_go_delimiter. rewrite split_go_piece by exact Hv.
    destruct Ht as [-> | (t & ->)].
    - exists []. reflexivity.
    - rewrite split_go_delimiter. eauto. }
  destruct Hsplit as (more & Hsplit).
  eexists _, _. split; [reflexivity|].
  cbn -[stringToArray_etl arrayToKV_etl push].
  assert (Harr : stringToArray_etl (String c EmptyString)
                   (JStr (k +:+ String c (v +:+ tail))) w1
                 = Ok (JArr (List.map JStr (k :: v :: more))) w1).
  { unfold stringToArray_etl.
    assert (Htr : truthy (JStr (k +:+ String c (v +:+ tail))) = true).
    { destruct k; reflexivity. }
    rewrite Htr. cbn [negb orb typeof]. simpl String.eqb.
    cbn [negb]. rewrite Hsplit. reflexivity. }
  split.
  - eapply push_map; [eapply push_map; [exact Hp | exact Ho | exact Harr]
                     | reflexivity | reflexivity ].
  - reflexivity.
Qed.

(** X17.  [mapStringToKV] never throws.  The empty string and every event
    that is neither a string nor an array come out unchanged; an array comes
    out as the key/value object of its first two elements; a non-empty string
    without the delimiter comes out with itself as key and an undefined
    value. *)
Theorem mapStringToKV_edge_cases (st : state) (d : string) (ee : nat)
    (x m : jsval) (w w1 : world) (r : step) :
  push (stream (this st)) ee x w = Ok r w1 ->
  out r = Some m ->
  exists st' r',
    mapStringToKV (Some d) None None st = Ok RThis st'
    /\ push (stream (this st')) ee x w = Ok r' w1
    /\ (m = JStr EmptyString -> out r' = Some (JStr EmptyString))
    /\ (forall l, m = JArr l ->
        out r' = Some (JObj [("key", array_at l 0); ("value", array_at l 1)]))
    /\ (typeof m <> "string" -> (forall l, m <> JArr l) -> out r' = Some m)
    /\ (forall c s, d = String c EmptyString -> m = JStr s ->
        s <> EmptyString -> (forall i, String.get i s <> Some c) ->
        out r' = Some (JObj [("key", JStr s); ("value", JUndefined)])).
Proof.
  intros Hp Ho.
  assert (Hmid : exists a, stringToArray_etl d m w1 = Ok a w1
            /\ (m = JStr EmptyString -> a = m)
            /\ (typeof m <> "string" -> a = m)
            /\ (forall c s, d = String c EmptyString -> m = JStr s ->
                s <> EmptyString -> (forall i, String.get i s <> Some c) ->
                a = JArr [JStr s])).
  { unfold stringToArray_etl. destruct m as [| |b|n|s|l|fs]; simpl.
    1-4, 6-7: rewrite ?orb_true_r; eexists; (split; [reflexivity|]);
      repeat split; try reflexivity; intros; discriminate.
    rewrite negb_involutive, orb_false_r.
    destruct (String.eqb s "") eqn:Hs; simpl.
    - eexists. split; [reflexivity|]. repeat split; try reflexivity.
      intros c s0 _ [= <-] Hne _. apply String.eqb_eq in Hs. contradiction.
    - eexists. split; [reflexivity|]. repeat split.
      + intros [= ->]. discriminate.
      + intros H. contradiction.
      + intros c s0 -> [= <-] _ Hc. unfold String_split.
        rewrite <- (string_app_nil_r s) at 1.
        rewrite split_go_piece by exact Hc. reflexivity. }
  destruct Hmid as (a & Ha & Hempty & Hother & Hnodelim).
  assert (Hkv : exists y, arrayToKV_etl 0 1 a w1 = Ok y w1
            /\ (forall l, a = JArr l ->
                y = JObj [("key", array_at l 0); ("value", array_at l 1)])
            /\ ((forall l, a <> JArr l) -> y = a)).
  { destruct a; simpl; eexists; (split; [reflexivity|]); split;
      try (intros; discriminate); try reflexivity.
    - intros l [= <-]. reflexivity.
    - intros H. exfalso. apply (H elems). reflexivity. }
  destruct Hkv as (y & Hy & Harr & Hnarr).
  eexists _, _. split; [reflexivity|].
  cbn -[stringToArray_etl arrayToKV_etl push].
  split; [eapply push_map; [eapply push_map; [exact Hp | exact Ho | exact Ha]
                           | reflexivity | exact Hy]|].
  cbn [out]. repeat split.
  - intros E. rewrite Hnarr.
    + rewrite (Hempty E), E. reflexivity.
    + rewrite (Hempty E), E. discriminate.
  - intros l E. rewrite (Harr l); [reflexivity|].
    rewrite Hother; [exact E | rewrite E; discriminate].
  - intros Ht Hn. rewrite Hnarr; rewrite Hother by exact Ht;
      [reflexivity | exact Hn].
  - intros c s Hd E Hne Hc. rewrite (Harr [JStr s]); [reflexivity|].
    eapply Hnodelim; eauto.
Qed.

Lemma toFormat_fresh (type v : jsval) (w : world) :
  toFormat_etl type None v w
  = Ok (JObj [("payload", v); ("time", JStr (Date_toISOString w));
              ("type", type); ("id", JStr (uuid_v4 w (uuid_count w)))])
       {| stores := stores w; uuid_v4 := uuid_v4 w;
          uuid_count := S (uuid_count w);
          Date_toISOString := Date_toISOString w;
          JSON_parse := JSON_parse w |}.
Proof. reflexivity. Qed.

Lemma feed_toFormat (type : jsval) (ee : nat) (vs : list jsval) :
  forall w : world,
  exists outs w',
    feed (s_map (toFormat_etl type None) (fromEvent ee)) ee vs w
    = Ok (s_map (toFormat_etl type None) (fromEvent ee), outs, false) w'
    /\ payloads_of outs = List.map inr vs
    /\ ids_of outs
       = List.map (fun i => inr (JStr (uuid_v4 w (uuid_count w + i))))
           (seq 0 (length vs))
    /\ uuid_count w' = (uuid_count w + length vs)%nat
    /\ uuid_v4 w' = uuid_v4 w.
Proof.
  induction vs as [|v rest IH]; intros w.
  - exists [], w. simpl. rewrite Nat.add_0_r. repeat split; reflexivity.
  - cbn [feed push]. unfold bind, ret. rewrite Nat.eqb_refl. cbn [out].
    rewrite toFormat_fresh. cbn [ended next out].
    match goal with
    | |- context [feed _ ee rest ?w1] =>
        destruct (IH w1) as (outs & w' & Hf & Hp & Hi & Hc & Hu)
    end.
    rewrite Hf. eexists _, w'. split; [reflexivity|].
    unfold payloads_of, ids_of in *.
    cbn [option_list app List.map length uuid_count uuid_v4] in *.
    unfold option_list. cbn [option_rect Datatypes.app List.map].
    split; [rewrite Hp; reflexivity|].
    split; [|split; [lia | exact Hu]].
    rewrite Hi. cbn [seq List.map]. rewrite Nat.add_0_r.
    f_equal. rewrite <- seq_shift, List.map_map.
    apply List.map_ext. intros i. do 3 f_equal. lia.
Qed.

(** X18.  After [mapToFormat(type)] without id extractor on a handle
    whose source is its own emitter, every written event comes out in an
    envelope carrying it as payload, and the events take successive values of
    the uuid generator as ids, one each: the ids are pairwise distinct when
    the generator does not repeat itself. *)
Theorem mapToFormat_generates_one_id_per_event (st : state) (type : jsval)
    (vs : list jsval) (w : world) :
  stream (this st) = fromEvent (_ee (this st)) ->
  exists st' s' outs w',
    DSL.mapToFormat type None st = Ok RThis st'
    /\ feed (stream (this st')) (_ee (this st')) vs w = Ok (s', outs, false) w'
    /\ payloads_of outs = List.map inr vs
    /\ ids_of outs
       = List.map (fun i => inr (JStr (uuid_v4 w (uuid_count w + i))))
           (seq 0 (length vs))
    /\ uuid_count w' = (uuid_count w + length vs)%nat
    /\ ((forall i j, uuid_v4 w i = uuid_v4 w j -> i = j) -> List.NoDup (ids_of outs)).
Proof.
  intros Hroot.
  destruct (feed_toFormat (param_default type (JStr "unknown-publish"))
              (_ee (this st)) vs w) as (outs & w' & Hf & Hp & Hi & Hc & _).
  eexists _, _, outs, w'. split; [reflexivity|].
  cbn -[toFormat_etl feed]. rewrite Hroot.
  split; [exact Hf|]. split; [exact Hp|]. split; [exact Hi|].
  split; [exact Hc|].
  intros Hinj. rewrite Hi.
  apply Finite.Injective_map_NoDup; [|apply List.seq_NoDup].
  intros i j [= H]. apply Hinj in H. lia.
Qed.

(** ** [atThroughput] *)

Lemma atThroughput_calls_past (count : Z) (ms : list jsval) :
  forall cs, count < cs -> atThroughput_calls count cs ms = [].
Proof.
  induction ms as [|m rest IH]; intros cs Hcs; [reflexivity|].
  cbn [atThroughput_calls]. unfold atThroughput_tap.
  replace (count <? cs) with true by (symmetry; apply Z.ltb_lt; lia).
  simpl. apply IH. exact Hcs.
Qed.

Lemma atThroughput_calls_from (count : Z) (ms : list jsval) :
  forall cs, cs <= count ->
    atThroughput_calls count cs ms
    = if (cs <? count) && (count - cs <=? Z.of_nat (length ms))
      then [nth (Z.to_nat (count - cs - 1)) ms JUndefined]
      else [].
Proof.
  induction ms as [|m rest IH]; intros cs Hcs.
  - cbn [atThroughput_calls length].
    destruct (cs <? count) eqn:H1; [|reflexivity].
    apply Z.ltb_lt in H1.
    replace (count - cs <=? Z.of_nat 0) with false
      by (symmetry; apply Z.leb_gt; lia).
    reflexivity.
  - cbn [atThroughput_calls]. unfold atThroughput_tap.
    replace (count <? cs) with false by (symmetry; apply Z.ltb_ge; lia).
    destruct (count =? cs + 1) eqn:H1.
    + apply Z.eqb_eq in H1. rewrite IH by lia.
      replace (cs + 1 <? count) with false by (symmetry; apply Z.ltb_ge; lia).
      replace (cs <? count) with true by (symmetry; apply Z.ltb_lt; lia).
      replace (count - cs <=? Z.of_nat (length (m :: rest))) with true
        by (symmetry; apply Z.leb_le; simpl length; lia).
      replace (count - cs - 1) with 0 by lia. reflexivity.
    + apply Z.eqb_neq in H1. cbn [option_list Datatypes.app].
      unfold option_list. cbn [option_rect Datatypes.app].
      destruct (Z.eq_dec cs count) as [->|Hne].
      * rewrite (atThroughput_calls_past count rest) by lia.
        rewrite Z.ltb_irrefl. reflexivity.
      * rewrite IH by lia.
        replace (cs <? count) with true by (symmetry; apply Z.ltb_lt; lia).
        replace (cs + 1 <? count) with true by (symmetry; apply Z.ltb_lt; lia).
        cbn [andb].
        replace (count - cs <=? Z.of_nat (length (m :: rest)))
          with (count - (cs + 1) <=? Z.of_nat (length rest))
          by (simpl length; apply eq_true_iff_eq; rewrite !Z.leb_le; lia).
        destruct (count - (cs + 1) <=? Z.of_nat (length rest)); [|reflexivity].
        replace (Z.to_nat (count - cs - 1))
          with (S (Z.to_nat (count - (cs + 1) - 1))) by lia.
        reflexivity.
Qed.

(** X19.  The tap of [atThroughput(count, callback)] calls the callback
    at most once: with the [count]-th message, when [count] is at least 1 and
    that many messages arrive, and otherwise never. *)
Theorem atThroughput_calls_back_once (count : Z) (messages : list jsval) :
  atThroughput_calls count 0 messages
  = if (1 <=? count) && (count <=? Z.of_nat (length messages))
    then [nth (Z.to_nat (count - 1)) messages JUndefined]
    else [].
Proof.
  destruct (Z_le_gt_dec 0 count) as [Hc|Hc].
  - rewrite atThroughput_calls_from by exact Hc.
    rewrite Z.sub_0_r.
    replace (0 <? count) with (1 <=? count)
      by (apply eq_true_iff_eq; rewrite Z.leb_le, Z.ltb_lt; lia).
    reflexivity.
  - rewrite atThroughput_calls_past by lia.
    replace (1 <=? count) with false by (symmetry; apply Z.leb_gt; lia).
    reflexivity.
Qed.

(** ** [slice] *)

Lemma slice_list_window (k : nat) (xs : list jsval) :
  (0 < k)%nat ->
  forall a : nat,
    slice_list (Z.of_nat a) (Fin (Z.of_nat k)) xs = firstn k (skipn a xs).
Proof.
  intros Hk. induction xs as [|x rest IH]; intros a.
  - destruct a, k; reflexivity.
  - destruct a as [|a'].
    + apply (slice_list_take k (x :: rest) Hk).
    + cbn [slice_list skipn]. unfold slice_event.
      replace (0 <? Z.of_nat (S a')) with true by (symmetry; apply Z.ltb_lt; lia).
      replace (Z.of_nat (S a') - 1) with (Z.of_nat a') by lia.
      simpl. apply IH.
Qed.

Lemma sliceSource_plain (start : Z) (end_ : bound) (s : Stream) :
  plain_source s = true ->
  most.sliceSource start end_ s = s_slice start (bound_sub end_ start) s.
Proof. destruct s; try discriminate; reflexivity. Qed.

(** X20.  On a handle whose stream is neither a map nor a slice, after
    [slice(a, b)] the stream lets out exactly the events of index
    [a <= i < b] of what it let out before, in their order; when [b <= a] it
    lets out nothing. *)
Theorem slice_lets_out_the_window (st : state) (a b : nat) (ee : nat)
    (vs outs : list jsval) (s' : Stream) (e : bool) (w w' : world) :
  plain_source (stream (this st)) = true ->
  feed (stream (this st)) ee vs w = Ok (s', outs, e) w' ->
  exists st1 s'' outs' e'' w'',
    DSL.slice (Z.of_nat a) (Fin (Z.of_nat b)) st = Ok RThis st1
    /\ feed (stream (this st1)) ee vs w = Ok (s'', outs', e'') w''
    /\ outs' = firstn (b - a) (skipn a outs)
    /\ (forall i x, outs' !! i = Some x <-> (i < b - a)%nat /\ outs !! (a + i)%nat = Some x).
Proof.
  intros Hplain Hfeed.
  assert (Hidx : forall i x,
            firstn (b - a) (skipn a outs) !! i = Some x
            <-> (i < b - a)%nat /\ outs !! (a + i)%nat = Some x).
  { intros i x. change (firstn (b - a) (skipn a outs))
      with (take (b - a) (drop a outs)).
    destruct (decide (i < b - a)%nat) as [Hi|Hi].
    - rewrite lookup_take_lt by exact Hi. rewrite lookup_drop. tauto.
    - rewrite lookup_take_ge by lia. split; [discriminate | tauto]. }
  eexists.
  cut (exists s'' outs' e'' w'',
         feed (most.slice (Z.of_nat a) (Fin (Z.of_nat b)) (stream (this st)))
           ee vs w = Ok (s'', outs', e'') w''
         /\ outs' = firstn (b - a) (skipn a outs)).
  { intros (s'' & outs' & e'' & w'' & Hf & ->).
    exists s'', (firstn (b - a) (skipn a outs)), e'', w''.
    split; [reflexivity|]. split; [exact Hf|]. split; [reflexivity | exact Hidx]. }
  unfold most.slice, bound_leb.
  destruct (Z.of_nat b <=? Z.of_nat a) eqn:Hab.
  - apply Z.leb_le in Hab. destruct (feed_empty ee vs w) as (e0 & E0).
    rewrite E0. replace (b - a)%nat with 0%nat by lia. eauto 10.
  - apply Z.leb_gt in Hab. rewrite sliceSource_plain by exact Hplain.
    cbn [bound_sub].
    destruct (feed_slice ee vs _ (Z.of_nat a) (Fin (Z.of_nat b - Z.of_nat a))
                _ _ _ _ _ Hfeed) as (s1 & e1 & w1 & H1).
    rewrite H1. eexists _, _, _, _. split; [reflexivity|].
    replace (Z.of_nat b - Z.of_nat a) with (Z.of_nat (b - a)) by lia.
    apply slice_list_window. lia.
Qed.

(** X21.  On a handle whose stream is neither a map nor a slice, let the
    stream let out the events [outs] while [vs] are emitted.  After
    [skip(n)] and [take(m)] it lets out the first [m] of the events of [outs]
    after the first [n], in their order; their number is
    [min(m, max(0, L - n))] for [L] the length of [outs]. *)
Theorem skip_then_take_on_plain_source (st : state) (n m : nat) (ee : nat)
    (vs outs : list jsval) (s' : Stream) (e : bool) (w w' : world) :
  plain_source (stream (this st)) = true ->
  feed (stream (this st)) ee vs w = Ok (s', outs, e) w' ->
  exists st1 st2 s'' outs' e'' w'',
    DSL.skip (Z.of_nat n) st = Ok RThis st1
    /\ DSL.take (Z.of_nat m) st1 = Ok RThis st2
    /\ feed (stream (this st2)) ee vs w = Ok (s'', outs', e'') w''
    /\ outs' = firstn m (skipn n outs)
    /\ Z.of_nat (length outs')
       = Z.min (Z.of_nat m) (Z.max 0 (Z.of_nat (length outs) - Z.of_nat n)).
Proof.
  intros Hplain Hfeed.
  assert (Hlen : Z.of_nat (length (firstn m (skipn n outs)))
                 = Z.min (Z.of_nat m)
                     (Z.max 0 (Z.of_nat (length outs) - Z.of_nat n))).
  { rewrite length_firstn, length_skipn. lia. }
  eexists _, _.
  cut (exists s'' outs' e'' w'',
         feed (most.take (Z.of_nat m) (most.skip (Z.of_nat n) (stream (this st))))
           ee vs w = Ok (s'', outs', e'') w''
         /\ outs' = firstn m (skipn n outs)).
  { intros (s'' & outs' & e'' & w'' & Hf & ->).
    exists s'', (firstn m (skipn n outs)), e'', w''.
    split; [reflexivity|]. split; [reflexivity|]. split; [exact Hf|].
    split; [reflexivity | exact Hlen]. }
  unfold most.take, most.skip, most.slice. cbn [bound_leb].
  rewrite (sliceSource_plain (Z.of_nat n) Infinity _ Hplain). cbn [bound_sub].
  destruct m as [|m'].
  - change (Z.of_nat 0 <=? 0) with true. cbv iota.
    destruct (feed_empty ee vs w) as (e0 & E0).
    rewrite E0. eauto 10.
  - replace (Z.of_nat (S m') <=? 0) with false
      by (symmetry; apply Z.leb_gt; lia).
    cbn [most.sliceSource bound_add bound_min bound_sub].
    replace (0 + Z.of_nat n) with (Z.of_nat n) by lia.
    replace (Z.of_nat (S m') + Z.of_nat n - Z.of_nat n)
      with (Z.of_nat (S m')) by lia.
    destruct (feed_slice ee vs _ (Z.of_nat n) (Fin (Z.of_nat (S m')))
                _ _ _ _ _ Hfeed) as (s1 & e1 & w1 & H1).
    rewrite H1. eexists _, _, _, _. split; [reflexivity|].
    apply slice_list_window. lia.
Qed.

(** X9 at one early and two late events. *)
Lemma writes_before_binding_are_lost_witness :
  exists st0 p st1 st2,
    write_all [JStr "early"] (start (handle0 (Some client1) true)) = Ok tt st0
    /\ DSL.to (JStr "out") JUndefined JUndefined JUndefined JUndefined None st0
       = Ok (RPromise p) st1
    /\ write_all [JStr "a"; JStr "b"] st1 = Ok tt st2
    /\ produced st0 = produced (start (handle0 (Some client1) true))
    /\ produced st2
       = produced (start (handle0 (Some client1) true))
         ++ List.map (dispatch_call "send" (JStr "out")
                        (param_default JUndefined (JNum 1))
                        (param_default JUndefined (JNum 0)))
              [JStr "a"; JStr "b"].
Proof.
  apply (writes_before_binding_are_lost (start (handle0 (Some client1) true))
           (JStr "out") JUndefined JUndefined JUndefined JUndefined None
           client1 (SetupReady (JBool true)) "send" [JStr "early"]
           [JStr "a"; JStr "b"] [JStr "a"; JStr "b"] (fromEvent 0) false host0);
    reflexivity.
Defined.

(** X10 at [constant] called after [to]. *)
Lemma operators_after_binding_do_not_reach_the_consumer_witness :
  exists p st1 st2 st3,
    DSL.to (JStr "out") JUndefined JUndefined JUndefined JUndefined None
      (start (handle0 (Some client1) true)) = Ok (RPromise p) st1
    /\ invoke (call_constant (JStr "replaced")) st1 = Ok RThis st2
    /\ write_all [JStr "a"; JStr "b"] st2 = Ok tt st3
    /\ produced st3
       = produced (start (handle0 (Some client1) true))
         ++ List.map (dispatch_call "send" (JStr "out")
                        (param_default JUndefined (JNum 1))
                        (param_default JUndefined (JNum 0)))
              [JStr "a"; JStr "b"].
Proof.
  apply (operators_after_binding_do_not_reach_the_consumer
           (start (handle0 (Some client1) true))
           (JStr "out") JUndefined JUndefined JUndefined JUndefined None
           client1 (SetupReady (JBool true)) "send"
           (call_constant (JStr "replaced"))
           [JStr "a"; JStr "b"] [JStr "a"; JStr "b"] (fromEvent 0) false host0);
    reflexivity.
Defined.

(** X11 at a clone whose source throws on every event. *)
Lemma transform_error_stops_production_witness :
  exists p st1 st2 sub,
    DSL.to (JStr "out") JUndefined JUndefined JUndefined JUndefined (Some 7%nat)
      (start (set_stream (s_map failing_etl) (handle0 (Some client1) true)))
    = Ok (RPromise p) st1
    /\ DSL.writeToStream (JStr "a") st1 = Ok tt st2
    /\ produced st2
       = produced (start (set_stream (s_map failing_etl)
                            (handle0 (Some client1) true)))
    /\ error_callbacks st2 = error_callbacks st1
    /\ subscriptions st2 = [sub]
    /\ sub_state sub = SubFailed (Error "boom")
    /\ promises st2 !! sub_promise sub = Some (Rejected (Error "boom"))
    /\ forall later, write_all later st2 = Ok tt st2.
Proof.
  apply (transform_error_stops_production
           (start (set_stream (s_map failing_etl) (handle0 (Some client1) true)))
           (JStr "out") JUndefined JUndefined JUndefined JUndefined (Some 7%nat)
           client1 (SetupReady (JBool true)) "send" (JStr "a") (Error "boom")
           host0);
    reflexivity.
Defined.

(** X12 at the event [null]. *)
Lemma mapFromFormat_fails_only_on_null_witness :
  exists st',
    DSL.mapFromFormat (start (handle0 (Some client0) false)) = Ok RThis st'
    /\ (JNull = JNull ->
        push (stream (this st')) 0 JNull host0
        = Throw (TypeError "Cannot read property 'payload' of null") host0)
    /\ (JNull <> JNull ->
        exists r', push (stream (this st')) 0 JNull host0 = Ok r' host0
                   /\ is_Some (out r')).
Proof.
  apply (mapFromFormat_fails_only_on_null
           (start (handle0 (Some client0) false)) 0 JNull JNull host0 host0
           (Step (fromEvent 0) (Some JNull) false));
    reflexivity.
Defined.

(** X15 at an event time-stamped with its id. *)
Lemma timestamp_then_wrap_payload_witness :
  exists st1 st2 r',
    DSL.timestamp (Some read_id) (start (handle0 (Some client0) false))
    = Ok RThis st1
    /\ mapWrapKafkaPayload st1 = Ok RThis st2
    /\ push (stream (this st2)) 0 (JObj [("id", JNum 7)]) host0 = Ok r' host0
    /\ (JObj [("id", JNum 7)] <> JUndefined ->
        out r' = Some (JObj [("id", JNum 7)]))
    /\ (JObj [("id", JNum 7)] = JUndefined ->
        out r' = Some (JObj [("time", JNum 7); ("value", JUndefined)])).
Proof.
  apply (timestamp_then_wrap_payload (start (handle0 (Some client0) false))
           read_id 0 (JObj [("id", JNum 7)]) (JObj [("id", JNum 7)]) (JNum 7)
           host0 host0 host0
           (Step (fromEvent 0) (Some (JObj [("id", JNum 7)])) false));
    reflexivity.
Defined.

(** X16 at "bla blup". *)
Lemma mapStringToKV_splits_key_and_value_witness :
  exists st' r',
    mapStringToKV (Some " ") None None (start (handle0 (Some client0) false))
    = Ok RThis st'
    /\ push (stream (this st')) 0 (JStr "bla blup") host0 = Ok r' host0
    /\ out r' = Some (JObj [("key", JStr "bla"); ("value", JStr "blup")]).
Proof.
  apply (mapStringToKV_splits_key_and_value
           (start (handle0 (Some client0) false)) " "%char "bla" "blup" ""
           0 (JStr "bla blup") host0 host0
           (Step (fromEvent 0) (Some (JStr "bla blup")) false)).
  - reflexivity.
  - reflexivity.
  - intros [|[|[|i]]]; discriminate.
  - intros [|[|[|[|i]]]]; discriminate.
  - left. reflexivity.
Defined.

(** X17 at the empty string. *)
Lemma mapStringToKV_edge_cases_witness :
  exists st' r',
    mapStringToKV (Some " ") None None (start (handle0 (Some client0) false))
    = Ok RThis st'
    /\ push (stream (this st')) 0 (JStr "") host0 = Ok r' host0
    /\ (JStr "" = JStr EmptyString -> out r' = Some (JStr EmptyString))
    /\ (forall l, JStr "" = JArr l ->
        out r' = Some (JObj [("key", array_at l 0); ("value", array_at l 1)]))
    /\ (typeof (JStr "") <> "string" -> (forall l, JStr "" <> JArr l) ->
        out r' = Some (JStr ""))
    /\ (forall c s, " " = String c EmptyString -> JStr "" = JStr s ->
        s <> EmptyString -> (forall i, String.get i s <> Some c) ->
        out r' = Some (JObj [("key", JStr s); ("value", JUndefined)])).
Proof.
  apply (mapStringToKV_edge_cases (start (handle0 (Some client0) false)) " "
           0 (JStr "") (JStr "") host0 host0
           (Step (fromEvent 0) (Some (JStr "")) false));
    reflexivity.
Defined.

(** X18 at two events. *)
Lemma mapToFormat_generates_one_id_per_event_witness :
  exists st' s' outs w',
    DSL.mapToFormat JUndefined None (start (handle0 (Some client0) false))
    = Ok RThis st'
    /\ feed (stream (this st')) (_ee (this st')) [JNum 1; JNum 2] host0
       = Ok (s', outs, false) w'
    /\ payloads_of outs = List.map inr [JNum 1; JNum 2]
    /\ ids_of outs
       = List.map (fun i => inr (JStr (uuid_v4 host0 (uuid_count host0 + i))))
           (seq 0 (length [JNum 1; JNum 2]))
    /\ uuid_count w' = (uuid_count host0 + length [JNum 1; JNum 2])%nat
    /\ ((forall i j, uuid_v4 host0 i = uuid_v4 host0 j -> i = j) ->
        List.NoDup (ids_of outs)).
Proof.
  apply (mapToFormat_generates_one_id_per_event
           (start (handle0 (Some client0) false)) JUndefined
           [JNum 1; JNum 2] host0).
  reflexivity.
Defined.

(** X20 at four events and [slice(1, 3)]. *)
Lemma slice_lets_out_the_window_witness :
  exists st1 s'' outs' e'' w'',
    DSL.slice (Z.of_nat 1) (Fin (Z.of_nat 3))
      (start (handle0 (Some client0) false)) = Ok RThis st1
    /\ feed (stream (this st1)) 0 [JNum 10; JNum 20; JNum 30; JNum 40] host0
       = Ok (s'', outs', e'') w''
    /\ outs' = firstn (3 - 1) (skipn 1 [JNum 10; JNum 20; JNum 30; JNum 40])
    /\ (forall i x,
          outs' !! i = Some x
          <-> (i < 3 - 1)%nat
              /\ [JNum 10; JNum 20; JNum 30; JNum 40] !! (1 + i)%nat = Some x).
Proof.
  apply (slice_lets_out_the_window (start (handle0 (Some client0) false)) 1 3 0
           [JNum 10; JNum 20; JNum 30; JNum 40]
           [JNum 10; JNum 20; JNum 30; JNum 40] (fromEvent 0) false host0 host0);
    reflexivity.
Defined.

(** X21 at six events, [skip(1)] and [take(2)]. *)
Lemma skip_then_take_on_plain_source_witness :
  exists st1 st2 s'' outs' e'' w'',
    DSL.skip (Z.of_nat 1) (start (handle0 (Some client0) false)) = Ok RThis st1
    /\ DSL.take (Z.of_nat 2) st1 = Ok RThis st2
    /\ feed (stream (this st2)) 0 six_events host0 = Ok (s'', outs', e'') w''
    /\ outs' = firstn 2 (skipn 1 six_events)
    /\ Z.of_nat (length outs')
       = Z.min (Z.of_nat 2)
           (Z.max 0 (Z.of_nat (length six_events) - Z.of_nat 1)).
Proof.
  apply (skip_then_take_on_plain_source (start (handle0 (Some client0) false))
           1 2 0 six_events six_events (fromEvent 0) false host0 host0);
    reflexivity.
Defined.
